(** * scripts/_rewrite_contacts_import_modal.py

    A shallow embedding of the script that regenerates
    [app/(dashboard)/contacts/contacts-import-modal.tsx] from its template,
    together with the parts of the Python runtime the script calls:
    [str.rstrip], [str.splitlines], [Path.exists], [Path.read_text],
    [Path.write_text] and [print].

    Conventions
    - a Python [str] is a list of Unicode code points ([Z]);
    - the content of a file is a list of bytes ([Z] in [0, 255]);
    - the host is POSIX: [os.linesep] is a single line feed;
    - a path is the list of its components; the file system is a finite map
      from paths, as the process names them, to nodes;
    - what the map does not show is a parameter of the run, the [host]:
      the other names of a file (links), the room there is for a write,
      and whether standard output takes what is printed. *)

From Stdlib Require Import ZArith Lia.
From stdpp Require Import base list strings gmap pretty.

Open Scope Z_scope.

(** ** Python strings *)

Abbreviation str := (list Z).
Abbreviation bytes := (list Z).

Definition LF : Z := 10.
Definition CR : Z := 13.

(** [Py_UNICODE_ISSPACE]: the code points for which [str.isspace] holds
    (bidirectional type WS, B or S, or category Zs). *)
Definition Py_UNICODE_ISSPACE (ch : Z) : bool :=
  ((0x09 <=? ch) && (ch <=? 0x0D))
  || ((0x1C <=? ch) && (ch <=? 0x1F))
  || (ch =? 0x20)
  || (ch =? 0x85)
  || (ch =? 0xA0)
  || (ch =? 0x1680)
  || ((0x2000 <=? ch) && (ch <=? 0x200A))
  || (ch =? 0x2028)
  || (ch =? 0x2029)
  || (ch =? 0x202F)
  || (ch =? 0x205F)
  || (ch =? 0x3000).

(** [Py_UNICODE_ISLINEBREAK]: the line boundaries of [str.splitlines]. *)
Definition Py_UNICODE_ISLINEBREAK (ch : Z) : bool :=
  (ch =? 0x0A) || (ch =? 0x0B) || (ch =? 0x0C) || (ch =? 0x0D)
  || (ch =? 0x1C) || (ch =? 0x1D) || (ch =? 0x1E)
  || (ch =? 0x85) || (ch =? 0x2028) || (ch =? 0x2029).

(** [str.rstrip()] with no argument.  The runtime starts at the last index
    and moves left while the character under it is white space; the result
    is the slice [s[0:j]]. *)
Fixpoint rstrip_end (s : str) (j : nat) : nat :=
  match j with
  | O => O
  | S j' =>
      match s !! j' with
      | Some ch => if Py_UNICODE_ISSPACE ch then rstrip_end s j' else j
      | None => j
      end
  end.

Definition rstrip (s : str) : str := take (rstrip_end s (length s)) s.

(** [str.splitlines()] with [keepends=False].  [line] is the slice between
    the start of the current line and the scanning index.  A line is added
    at every line break and, when the text does not end in one, at the end
    of the text; a carriage return followed by a line feed is one break. *)
Fixpoint splitlines_from (line : str) (s : str) : list str :=
  match s with
  | [] => match line with [] => [] | _ => [line] end
  | ch :: rest =>
      if Py_UNICODE_ISLINEBREAK ch then
        match rest with
        | ch' :: rest' =>
            if (ch =? CR) && (ch' =? LF)
            then line :: splitlines_from [] rest'
            else line :: splitlines_from [] rest
        | [] => [line]
        end
      else splitlines_from (line ++ [ch]) rest
  end.

Definition splitlines (s : str) : list str := splitlines_from [] s.

(** The two expressions of [main] that do not touch the outside world:
    [content = text.rstrip() + "\n"] and
    [line_count = len(content.splitlines())]. *)
Definition normalize (text : str) : str := rstrip text ++ [LF].

Definition line_count (content : str) : nat := length (splitlines content).

(** Code points of an ASCII literal. *)
Definition lit (s : string) : str :=
  (fun a => Z.of_nat (Ascii.nat_of_ascii a)) <$> String.list_ascii_of_string s.

(** ** The UTF-8 codec of [read_text] and [write_text] ([errors="strict"]) *)

Definition continuation (lo hi b : Z) : bool := (lo <=? b) && (b <=? hi).

(** The strict decoder: shortest forms only, no surrogates, nothing above
    U+10FFFF.  The code point is assembled as the runtime does, by shifts
    and additions minus the accumulated tag bits. *)
Fixpoint utf8_decode (data : bytes) : option str :=
  match data with
  | [] => Some []
  | b0 :: t0 =>
      if (0 <=? b0) && (b0 <? 0x80) then
        cons b0 <$> utf8_decode t0
      else if (0xC2 <=? b0) && (b0 <=? 0xDF) then
        match t0 with
        | b1 :: t1 =>
            if continuation 0x80 0xBF b1
            then cons (Z.shiftl b0 6 + b1 - (Z.shiftl 0xC0 6 + 0x80))
                   <$> utf8_decode t1
            else None
        | _ => None
        end
      else if (0xE0 <=? b0) && (b0 <=? 0xEF) then
        match t0 with
        | b1 :: b2 :: t2 =>
            if continuation (if b0 =? 0xE0 then 0xA0 else 0x80)
                            (if b0 =? 0xED then 0x9F else 0xBF) b1
               && continuation 0x80 0xBF b2
            then cons (Z.shiftl b0 12 + Z.shiftl b1 6 + b2
                       - (Z.shiftl 0xE0 12 + Z.shiftl 0x80 6 + 0x80))
                   <$> utf8_decode t2
            else None
        | _ => None
        end
      else if (0xF0 <=? b0) && (b0 <=? 0xF4) then
        match t0 with
        | b1 :: b2 :: b3 :: t3 =>
            if continuation (if b0 =? 0xF0 then 0x90 else 0x80)
                            (if b0 =? 0xF4 then 0x8F else 0xBF) b1
               && continuation 0x80 0xBF b2
               && continuation 0x80 0xBF b3
            then cons (Z.shiftl b0 18 + Z.shiftl b1 12 + Z.shiftl b2 6 + b3
                       - (Z.shiftl 0xF0 18 + Z.shiftl 0x80 12
                          + Z.shiftl 0x80 6 + 0x80))
                   <$> utf8_decode t3
            else None
        | _ => None
        end
      else None
  end.

(** A Unicode scalar value: a code point that is not a surrogate. *)
Definition scalar_value (ch : Z) : bool :=
  (0 <=? ch) && (ch <=? 0x10FFFF) && negb ((0xD800 <=? ch) && (ch <=? 0xDFFF)).

(** The strict encoder; a surrogate cannot be encoded. *)
Definition utf8_encode_char (ch : Z) : option bytes :=
  if (0 <=? ch) && (ch <? 0x80) then Some [ch]
  else if (0x80 <=? ch) && (ch <? 0x800) then
    Some [Z.lor 0xC0 (Z.shiftr ch 6); Z.lor 0x80 (Z.land ch 0x3F)]
  else if (0xD800 <=? ch) && (ch <=? 0xDFFF) then None
  else if (0x800 <=? ch) && (ch <? 0x10000) then
    Some [Z.lor 0xE0 (Z.shiftr ch 12);
          Z.lor 0x80 (Z.land (Z.shiftr ch 6) 0x3F);
          Z.lor 0x80 (Z.land ch 0x3F)]
  else if (0x10000 <=? ch) && (ch <=? 0x10FFFF) then
    Some [Z.lor 0xF0 (Z.shiftr ch 18);
          Z.lor 0x80 (Z.land (Z.shiftr ch 12) 0x3F);
          Z.lor 0x80 (Z.land (Z.shiftr ch 6) 0x3F);
          Z.lor 0x80 (Z.land ch 0x3F)]
  else None.

Definition utf8_encode (s : str) : option bytes :=
  mjoin <$> mapM utf8_encode_char s.

(** ** Newline handling of text-mode files ([newline=None]) *)

(** On input, universal newlines: CR LF and a lone CR both become LF. *)
Fixpoint universal_newlines (s : str) : str :=
  match s with
  | [] => []
  | ch :: rest =>
      if ch =? CR then
        LF :: match rest with
              | ch' :: rest' =>
                  if ch' =? LF then universal_newlines rest'
                  else universal_newlines rest
              | [] => []
              end
      else ch :: universal_newlines rest
  end.

(** On output, every LF becomes [os.linesep]. *)
Definition os_linesep : str := [LF].

Definition translate_newlines (s : str) : str :=
  s ≫= (λ ch, if ch =? LF then os_linesep else [ch]).

(** ** The outside world *)

Abbreviation path := (list string).

(** A directory entry: a regular file with its permissions and content, or
    a directory with its write permission.  An entry that is listed can be
    reached: the map need not list the directories above it. *)
Inductive node :=
  | File (readable writable : bool) (data : bytes)
  | Dir (writable : bool).

(** File-system operations a run performs, in order, with their success. *)
Inductive event :=
  | Stat (p : path)
  | OpenRead (p : path) (ok : bool)
  | OpenWrite (p : path) (ok : bool).

Record world := World {
  fs : gmap path node;
  stdout : list string;
  trace : list event
}.

Inductive exn :=
  | FileNotFoundError (msg : string)
  | IsADirectoryError (p : path)
  | NotADirectoryError (p : path)
  | PermissionError (p : path)
  | UnicodeDecodeError
  | UnicodeEncodeError
  | OSError (msg : string).

(** ** The host *)

(** What becomes of text written to standard output: it is accepted; or
    the write itself fails (an unbuffered stream, a terminal that hung
    up); or the stream is buffered (a file, a pipe) and the failure only
    shows when the interpreter flushes it at exit. *)
Inductive sink := Accepts | RejectsWrite | RejectsFlush.

(** What the script cannot see in the map of the file system:
    - the other names under which the file at a path is known (hard
      links, symbolic links, the absolute spelling of a relative path);
    - the number of bytes a file can take before a write to it fails
      (free space, a file-size limit), if there is such a bound;
    - the state of standard output. *)
Record host := Host {
  other_names : path → list path;
  write_capacity : option nat;
  stdout_sink : sink
}.

(** Whether the host can take [data] whole, and the part of [data] that
    reaches the file in any case. *)
Definition fits (h : host) (data : bytes) : bool :=
  match write_capacity h with
  | None => true
  | Some n => bool_decide (length data ≤ n)%nat
  end.

Definition stored (h : host) (data : bytes) : bytes :=
  match write_capacity h with
  | None => data
  | Some n => take n data
  end.

(** ** Computations: state over the world, with exceptions *)

Inductive result (A : Type) :=
  | Return (a : A)
  | Raise (e : exn).
Arguments Return {A} a.
Arguments Raise {A} e.

Definition py (A : Type) : Type := world → result A * world.

#[global] Instance py_ret : MRet py := λ A a w, (Return a, w).

#[global] Instance py_bind : MBind py := λ A B f m w,
  match m w with
  | (Return a, w') => f a w'
  | (Raise e, w') => (Raise e, w')
  end.

Definition raise {A} (e : exn) : py A := λ w, (Raise e, w).

Definition log (ev : event) : py unit := λ w,
  (Return (), World (fs w) (stdout w) (trace w ++ [ev])).

Definition get_fs : py (gmap path node) := λ w, (Return (fs w), w).

(** The file at [p] now holds [data]; so does the same file under its
    other names, each of which keeps the permissions it showed. *)
Definition renamed (m : gmap path node) (r w : bool) (data : bytes)
    (q : path) : node :=
  match m !! q with
  | Some (File r' w' _) => File r' w' data
  | _ => File r w data
  end.

Definition store (h : host) (p : path) (r w : bool) (data : bytes)
    (m : gmap path node) : gmap path node :=
  <[p := File r w data]>
    (foldr (λ q acc, <[q := renamed m r w data q]> acc) m (other_names h p)).

Definition put_file (h : host) (p : path) (r w : bool) (data : bytes) :
    py unit := λ world,
  (Return (), World (store h p r w data (fs world)) (stdout world)
                (trace world)).

(** ** pathlib *)

Definition path_str (p : path) : string := String.concat "/" p.

Definition with_name (p : path) (name : string) : path :=
  removelast p ++ [name].

Definition parent (p : path) : path := removelast p.

(** The directories above [p], outermost first. *)
Definition ancestors (p : path) : list path :=
  (λ i, take i p) <$> seq 1 (length p - 1).

(** [Path.exists()]: whether [stat] finds an entry of any kind. *)
Definition Path_exists (p : path) : py bool :=
  m ← get_fs;
  log (Stat p);;
  mret (bool_decide (is_Some (m !! p))).

(** [open(p, "r")] followed by reading the whole file. *)
Definition read_bytes (p : path) : py bytes :=
  m ← get_fs;
  match m !! p with
  | None => log (OpenRead p false);; raise (FileNotFoundError (path_str p))
  | Some (Dir _) => log (OpenRead p false);; raise (IsADirectoryError p)
  | Some (File false _ _) => log (OpenRead p false);; raise (PermissionError p)
  | Some (File true _ data) => log (OpenRead p true);; mret data
  end.

(** What a text-mode reader makes of the bytes of a file, and what a
    text-mode writer makes of a string. *)
Definition text_of_bytes (data : bytes) : option str :=
  universal_newlines <$> utf8_decode data.

Definition bytes_of_text (s : str) : option bytes :=
  utf8_encode (translate_newlines s).

(** [Path.read_text(encoding="utf-8")]. *)
Definition Path_read_text (p : path) : py str :=
  data ← read_bytes p;
  match text_of_bytes data with
  | Some s => mret s
  | None => raise UnicodeDecodeError
  end.

(** Whether one of the directories above [p] is listed as a regular
    file. *)
Definition file_in_the_way (m : gmap path node) (p : path) : bool :=
  existsb (λ q, match m !! q with Some (File _ _ _) => true | _ => false end)
    (ancestors p).

(** [open(p, "w")]: the permissions of the file the open call leaves
    behind (an emptied existing file, or a new empty one in an existing
    writable directory, created readable and writable as under the usual
    umask), or the error it raises.  Nothing is created above the file:
    with its directory missing the call fails, of [NotADirectoryError]
    when a regular file stands where a directory should, of
    [FileNotFoundError] otherwise. *)
Definition open_w (m : gmap path node) (p : path) : exn + (bool * bool) :=
  match m !! p with
  | Some (Dir _) => inl (IsADirectoryError p)
  | Some (File r true _) => inr (r, true)
  | Some (File _ false _) => inl (PermissionError p)
  | None =>
      match m !! parent p with
      | Some (Dir true) => inr (true, true)
      | Some (Dir false) => inl (PermissionError p)
      | Some (File _ _ _) => inl (NotADirectoryError p)
      | None =>
          if file_in_the_way m p then inl (NotADirectoryError p)
          else inl (FileNotFoundError (path_str p))
      end
  end.

(** [Path.write_text(s, encoding="utf-8")]: the file is opened, and
    emptied, before the text is encoded and written; the write stops with
    [OSError] where the host can take no more, leaving what it took. *)
Definition Path_write_text (h : host) (p : path) (s : str) : py unit :=
  m ← get_fs;
  match open_w m p with
  | inl e => log (OpenWrite p false);; raise e
  | inr (r, w) =>
      match bytes_of_text s with
      | Some data =>
          put_file h p r w (stored h data);;
          if fits h data then log (OpenWrite p true)
          else log (OpenWrite p false);;
               raise (OSError "No space left on device")
      | None =>
          put_file h p r w [];; log (OpenWrite p false);;
          raise UnicodeEncodeError
      end
  end.

(** [print(s)]: the line goes to standard output, unless the write
    fails. *)
Definition print (h : host) (s : string) : py unit :=
  match stdout_sink h with
  | RejectsWrite => raise (OSError "Cannot write to standard output")
  | _ => λ w, (Return (), World (fs w) (stdout w ++ [s]) (trace w))
  end.

(** ** The script *)

Section Script.

(** The host the script runs on, and [Path(__file__)]: where the script
    itself lives. *)
Variable env : host.
Variable script_file : path.

Definition TEMPLATE_PATH : path :=
  with_name script_file "contacts-import-modal.tsx.template".

Definition TARGET_PATH : path :=
  ["app"; "(dashboard)"; "contacts"; "contacts-import-modal.tsx"].

Definition main : py unit :=
  found ← Path_exists TEMPLATE_PATH;
  if negb found then
    raise (FileNotFoundError ("Template not found: " +:+ path_str TEMPLATE_PATH))
  else
    text ← Path_read_text TEMPLATE_PATH;
    let content := rstrip text ++ [LF] in
    Path_write_text env TARGET_PATH content;;
    let line_count := length (splitlines content) in
    print env ("Wrote " +:+ path_str TARGET_PATH
               +:+ " (" +:+ pretty line_count +:+ " lines)").

(** [if __name__ == "__main__": main()]: the exit status of the process,
    the exception it died of, if any, and the world it leaves.  An
    uncaught exception gives status 1.  When [main] returns, the
    interpreter flushes standard output: status 0, or status 120 and the
    printed text lost when the flush fails. *)
Definition run (w : world) : Z * option exn * world :=
  match main w with
  | (Return _, w') =>
      match stdout_sink env with
      | RejectsFlush => (120, None, World (fs w') (stdout w) (trace w'))
      | _ => (0, None, w')
      end
  | (Raise e, w') => (1, Some e, w')
  end.

End Script.

(** ** What the specification says, in its own words *)

(** "Strip all trailing whitespace/newline characters from the end of the
    content": [p] is [text] without its trailing white space when [text] is
    [p] followed by white space only and [p] does not end in white space. *)
Definition ends_in_space (p : str) : bool :=
  match last p with
  | Some ch => Py_UNICODE_ISSPACE ch
  | None => false
  end.

Definition stripped (text p : str) : Prop :=
  ∃ ws, text = p ++ ws
        ∧ Forall (λ ch, Py_UNICODE_ISSPACE ch = true) ws
        ∧ ends_in_space p = false.

(** "Count of newline-delimited segments": the segments that the newline
    character delimits, each newline closing the segment before it (so that
    the text ["abc\n"] is the one segment ["abc"]). *)
Fixpoint segments_from (seg : str) (s : str) : list str :=
  match s with
  | [] => match seg with [] => [] | _ => [seg] end
  | ch :: rest =>
      if ch =? LF then seg :: segments_from [] rest
      else segments_from (seg ++ [ch]) rest
  end.

Definition newline_segments (s : str) : list str := segments_from [] s.

(** The other reading of the same words, [s.split("\n")]: the pieces
    between newlines, with an empty piece after a final newline. *)
Fixpoint split_from (seg : str) (s : str) : list str :=
  match s with
  | [] => [seg]
  | ch :: rest =>
      if ch =? LF then seg :: split_from [] rest
      else split_from (seg ++ [ch]) rest
  end.

Definition split_newline (s : str) : list str := split_from [] s.

(** The newline character is the only line boundary that occurs in [s]. *)
Definition only_newline_breaks (s : str) : Prop :=
  Forall (λ ch, Py_UNICODE_ISLINEBREAK ch = true → ch = LF) s.

(** The content of the regular file at [p], if there is one. *)
Definition file_data (m : gmap path node) (p : path) : option bytes :=
  match m !! p with
  | Some (File _ _ data) => Some data
  | _ => None
  end.

(** The events a run added to the trace. *)
Definition new_events (w w' : world) : list event :=
  drop (length (trace w)) (trace w').

(** "A human-readable confirmation message" for a count of [k] lines. *)
Definition confirmation (k : nat) : string :=
  "Wrote app/(dashboard)/contacts/contacts-import-modal.tsx ("
  +:+ pretty k +:+ " lines)".

(** ** A sample installation, for concrete runs *)

Definition sample_script : path :=
  ["scripts"; "_rewrite_contacts_import_modal.py"].

Definition install (p : path) (content : option bytes)
    (m : gmap path node) : gmap path node :=
  match content with
  | Some data => <[p := File true true data]> m
  | None => m
  end.

(** A project tree with the destination directory in place, the template
    and the destination holding the given bytes when there are any. *)
Definition sample_world (template target : option bytes) : world :=
  World
    (install (TEMPLATE_PATH sample_script) template
       (install TARGET_PATH target {[ parent TARGET_PATH := Dir true ]}))
    [] [].

(** A host with no second name for any file, no bound on writes and a
    standard output that takes what it is given. *)
Definition quiet_host : host := Host (λ _, []) None Accepts.

(** The world a run of the sample script leaves on the quiet host. *)
Definition after (w : world) : world := (run quiet_host sample_script w).2.

(** Sample templates: trailing blank lines, the scenario of the
    specification, two plain lines, lines ended by form feeds, and white
    space only. *)
Definition abc_template : bytes := lit "abc" ++ [LF; LF; LF].

Definition export_template : bytes :=
  lit "export const X = 1;" ++ [LF; 32; 32; 32; LF].

Definition two_line_template : bytes :=
  lit "first" ++ [LF] ++ lit "second" ++ [LF].

Definition form_feed_template : bytes :=
  lit "a" ++ [0x0C] ++ lit "b" ++ [0x0C] ++ lit "c" ++ [LF].

Definition blank_template : bytes := [32; 9; LF; CR; LF; 32].


(** More sample templates: already normalized, with Windows and old Mac
    line endings, and a byte that is not UTF-8. *)
Definition tidy_template : bytes := lit "abc" ++ [LF].

Definition crlf_template : bytes :=
  lit "a" ++ [CR; LF] ++ lit "b" ++ [CR] ++ lit "c" ++ [CR; LF].

Definition latin1_template : bytes := lit "caf" ++ [0xE9; LF].


Definition linked_host : host :=
  Host (λ p, if bool_decide (p = TARGET_PATH)
             then [TEMPLATE_PATH sample_script]
             else if bool_decide (p = TEMPLATE_PATH sample_script)
                  then [TARGET_PATH] else [])
    None Accepts.



(** * Properties of the string operations *)

Section Strings.

Implicit Types (s p ws line text : str) (ch : Z).

Lemma rstrip_end_le s j : (rstrip_end s j ≤ j)%nat.
Proof.
  induction j as [|j IH]; simpl; [lia|].
  destruct (s !! j) as [ch|]; [|lia].
  destruct (Py_UNICODE_ISSPACE ch); lia.
Qed.

(** The scan never looks at or beyond its starting index. *)
Lemma rstrip_end_app s t j :
  (j ≤ length s)%nat → rstrip_end (s ++ t) j = rstrip_end s j.
Proof.
  induction j as [|j IH]; intros Hj; simpl; [done|].
  rewrite lookup_app_l by lia.
  destruct (s !! j) as [ch|]; [|done].
  destruct (Py_UNICODE_ISSPACE ch); [apply IH; lia | done].
Qed.

Lemma rstrip_nil : rstrip [] = [].
Proof. reflexivity. Qed.

Lemma rstrip_snoc s ch :
  rstrip (s ++ [ch]) = if Py_UNICODE_ISSPACE ch then rstrip s else s ++ [ch].
Proof.
  unfold rstrip. rewrite length_app. simpl length.
  replace (length s + 1)%nat with (S (length s)) by lia.
  simpl rstrip_end. rewrite list_lookup_middle by done.
  destruct (Py_UNICODE_ISSPACE ch).
  - rewrite rstrip_end_app by lia.
    apply take_app_le, rstrip_end_le.
  - apply take_ge. rewrite length_app. simpl. lia.
Qed.

Lemma rstrip_spaces p ws :
  Forall (λ ch, Py_UNICODE_ISSPACE ch = true) ws → rstrip (p ++ ws) = rstrip p.
Proof.
  induction ws as [|ch ws IH] using rev_ind; intros Hws.
  - by rewrite app_nil_r.
  - rewrite Forall_app, Forall_singleton in Hws. destruct Hws as [Hws Hch].
    rewrite (assoc_L (++)), rstrip_snoc, Hch. by apply IH.
Qed.

Lemma rstrip_fixed p : ends_in_space p = false → rstrip p = p.
Proof.
  destruct p as [|ch p _] using rev_ind; [done|].
  unfold ends_in_space. rewrite last_snoc. intros Hch.
  by rewrite rstrip_snoc, Hch.
Qed.

Lemma rstrip_ends p : ends_in_space (rstrip p) = false.
Proof.
  induction p as [|ch p IH] using rev_ind; [done|].
  rewrite rstrip_snoc. destruct (Py_UNICODE_ISSPACE ch) eqn:Hch; [done|].
  unfold ends_in_space. by rewrite last_snoc.
Qed.

(** [rstrip] meets the specification's description of stripping ... *)
Lemma rstrip_stripped text : stripped text (rstrip text).
Proof.
  induction text as [|ch text IH] using rev_ind.
  - exists []. by repeat split.
  - rewrite rstrip_snoc. destruct (Py_UNICODE_ISSPACE ch) eqn:Hch.
    + destruct IH as (ws & Heq & Hws & Hend). exists (ws ++ [ch]).
      split; [by rewrite (assoc_L (++)), <-Heq|]. split; [|done].
      apply Forall_app. split; [done|]. by apply Forall_singleton.
    + exists []. split; [by rewrite app_nil_r|]. split; [done|].
      unfold ends_in_space. by rewrite last_snoc.
Qed.

(** ... and is the only function that does. *)
Lemma stripped_rstrip text p : stripped text p → p = rstrip text.
Proof.
  intros (ws & -> & Hws & Hend).
  by rewrite rstrip_spaces, rstrip_fixed.
Qed.

Lemma rstrip_all_space text :
  Forall (λ ch, Py_UNICODE_ISSPACE ch = true) text → rstrip text = [].
Proof. intros H. by rewrite <-(app_nil_l text), rstrip_spaces. Qed.

Lemma rstrip_idemp text : rstrip (rstrip text) = rstrip text.
Proof. apply rstrip_fixed, rstrip_ends. Qed.

Lemma normalize_rstrip text : rstrip (normalize text) = rstrip text.
Proof.
  unfold normalize. rewrite rstrip_snoc. simpl. apply rstrip_idemp.
Qed.

(** *** [splitlines] *)

(** Text that is not empty has at least one line. *)
Lemma splitlines_from_nonempty line s :
  s ≠ [] → (1 ≤ length (splitlines_from line s))%nat.
Proof.
  revert line. induction s as [|ch rest IH]; intros line Hs; [done|].
  simpl. destruct (Py_UNICODE_ISLINEBREAK ch).
  - destruct rest as [|ch' rest']; [simpl; lia|].
    destruct ((ch =? CR) && (ch' =? LF)); simpl; lia.
  - destruct rest as [|ch' rest']; [|by apply IH].
    simpl. destruct (line ++ [ch]) eqn:E; [|simpl; lia].
    by apply app_eq_nil in E as [_ ?].
Qed.

Lemma line_count_normalize text : (1 ≤ line_count (normalize text))%nat.
Proof.
  apply splitlines_from_nonempty. unfold normalize.
  intros E. by apply app_eq_nil in E as [_ ?].
Qed.

(** When the newline character is the only line boundary in the text, the
    lines of [splitlines] are the newline-delimited segments. *)
Lemma splitlines_from_segments line s :
  only_newline_breaks s → splitlines_from line s = segments_from line s.
Proof.
  revert line. induction s as [|ch rest IH]; intros line Hs; [done|].
  apply Forall_cons in Hs as [Hch Hrest]. simpl.
  destruct (ch =? LF) eqn:Heq.
  - apply Z.eqb_eq in Heq as ->. simpl.
    destruct rest as [|ch' rest']; [done|]. by rewrite IH.
  - destruct (Py_UNICODE_ISLINEBREAK ch) eqn:Hbr; [|by apply IH].
    apply Z.eqb_neq in Heq. by destruct Heq; apply Hch.
Qed.

(** The two readings of "newline-delimited segments", counted: a text that
    ends in a newline has as many segments as newline characters, and one
    more piece than that when split at each of them. *)
Lemma segments_from_count seg s :
  length (segments_from seg (s ++ [LF])) = S (count_occ Z.eq_dec s LF).
Proof.
  revert seg. induction s as [|ch rest IH]; intros seg; [done|].
  simpl. destruct (Z.eq_dec ch LF) as [->|Hne].
  - simpl. by rewrite IH.
  - apply Z.eqb_neq in Hne. by rewrite Hne, IH.
Qed.

Lemma split_from_count seg s :
  length (split_from seg s) = S (count_occ Z.eq_dec s LF).
Proof.
  revert seg. induction s as [|ch rest IH]; intros seg; [done|].
  simpl. destruct (Z.eq_dec ch LF) as [->|Hne].
  - simpl. by rewrite IH.
  - apply Z.eqb_neq in Hne. by rewrite Hne, IH.
Qed.

(** Every line boundary is white space: stripped text ends in none. *)
Lemma linebreak_space ch :
  Py_UNICODE_ISLINEBREAK ch = true → Py_UNICODE_ISSPACE ch = true.
Proof.
  unfold Py_UNICODE_ISLINEBREAK, Py_UNICODE_ISSPACE. intros H.
  repeat (apply orb_prop in H as [H|H]); apply Z.eqb_eq in H as ->; done.
Qed.

End Strings.

(** * Properties of the codec *)

Section Codec.

Implicit Types (s : str) (data : bytes) (ch : Z).

Lemma scalar_value_spec ch :
  scalar_value ch = true ↔ 0 ≤ ch ≤ 0x10FFFF ∧ ¬ (0xD800 ≤ ch ≤ 0xDFFF).
Proof.
  unfold scalar_value.
  rewrite !andb_true_iff, negb_true_iff, andb_false_iff.
  rewrite !Z.leb_le, !Z.leb_gt. lia.
Qed.

Ltac decode_step IH Hdec :=
  match type of Hdec with
  | context [utf8_decode ?t] =>
      let E := fresh "E" in
      destruct (utf8_decode t) as [?|] eqn:E; simpl in Hdec; [|done];
      injection Hdec as <-; apply Forall_cons; split;
      [| eapply IH; [| reflexivity | exact E]; simpl; lia ]
  end.

(** The decoder yields scalar values only. *)
Lemma utf8_decode_scalar data s :
  utf8_decode data = Some s → Forall (λ ch, scalar_value ch = true) s.
Proof.
  remember (length data) as n eqn:Hn. revert data s Hn.
  induction n as [n IH] using lt_wf_ind. intros data s -> Hdec.
  destruct data as [|b0 t0]; simpl in Hdec.
  { injection Hdec as <-. constructor. }
  destruct ((0 <=? b0) && (b0 <? 0x80)) eqn:H1.
  { decode_step IH Hdec. apply scalar_value_spec.
    apply andb_true_iff in H1 as [?%Z.leb_le ?%Z.ltb_lt]. lia. }
  destruct ((0xC2 <=? b0) && (b0 <=? 0xDF)) eqn:H2.
  { destruct t0 as [|b1 t1]; [done|].
    destruct (continuation 0x80 0xBF b1) eqn:C1; [|done].
    decode_step IH Hdec. apply scalar_value_spec.
    unfold continuation in *.
    apply andb_true_iff in H2 as [?%Z.leb_le ?%Z.leb_le].
    apply andb_true_iff in C1 as [?%Z.leb_le ?%Z.leb_le].
    rewrite !Z.shiftl_mul_pow2 by lia. lia. }
  destruct ((0xE0 <=? b0) && (b0 <=? 0xEF)) eqn:H3.
  { destruct t0 as [|b1 [|b2 t2]]; [done..|].
    destruct (continuation _ _ b1 && continuation 0x80 0xBF b2) eqn:C; [|done].
    decode_step IH Hdec. apply scalar_value_spec.
    unfold continuation in *.
    apply andb_true_iff in H3 as [?%Z.leb_le ?%Z.leb_le].
    apply andb_true_iff in C as [C1 C2].
    apply andb_true_iff in C1 as [?%Z.leb_le ?%Z.leb_le].
    apply andb_true_iff in C2 as [?%Z.leb_le ?%Z.leb_le].
    rewrite !Z.shiftl_mul_pow2 by lia.
    destruct (Z.eqb_spec b0 0xE0), (Z.eqb_spec b0 0xED); lia. }
  destruct ((0xF0 <=? b0) && (b0 <=? 0xF4)) eqn:H4; [|done].
  destruct t0 as [|b1 [|b2 [|b3 t3]]]; [done..|].
  destruct (continuation _ _ b1 && continuation 0x80 0xBF b2
            && continuation 0x80 0xBF b3) eqn:C; [|done].
  decode_step IH Hdec. apply scalar_value_spec.
  unfold continuation in *.
  apply andb_true_iff in H4 as [?%Z.leb_le ?%Z.leb_le].
  apply andb_true_iff in C as [C C3]. apply andb_true_iff in C as [C1 C2].
  apply andb_true_iff in C1 as [?%Z.leb_le ?%Z.leb_le].
  apply andb_true_iff in C2 as [?%Z.leb_le ?%Z.leb_le].
  apply andb_true_iff in C3 as [?%Z.leb_le ?%Z.leb_le].
  rewrite !Z.shiftl_mul_pow2 by lia.
  destruct (Z.eqb_spec b0 0xF0), (Z.eqb_spec b0 0xF4); lia.
Qed.

(** The encoder accepts every scalar value. *)
Lemma utf8_encode_char_scalar ch :
  scalar_value ch = true → is_Some (utf8_encode_char ch).
Proof.
  intros [Hr Hs]%scalar_value_spec. unfold utf8_encode_char.
  destruct ((0 <=? ch) && (ch <? 0x80)) eqn:H1; [done|].
  destruct ((0x80 <=? ch) && (ch <? 0x800)) eqn:H2; [done|].
  destruct ((0xD800 <=? ch) && (ch <=? 0xDFFF)) eqn:H3.
  { apply andb_true_iff in H3 as [?%Z.leb_le ?%Z.leb_le]. lia. }
  destruct ((0x800 <=? ch) && (ch <? 0x10000)) eqn:H4; [done|].
  destruct ((0x10000 <=? ch) && (ch <=? 0x10FFFF)) eqn:H5; [done|].
  apply andb_false_iff in H1, H2, H4, H5.
  rewrite ?Z.leb_gt, ?Z.ltb_ge in *. lia.
Qed.

Lemma utf8_encode_scalar s :
  Forall (λ ch, scalar_value ch = true) s → is_Some (utf8_encode s).
Proof.
  intros Hs. unfold utf8_encode. apply fmap_is_Some, mapM_is_Some.
  eapply Forall_impl; [exact Hs|]. intros ch. apply utf8_encode_char_scalar.
Qed.

(** Newline translation keeps white space white and scalar values scalar. *)
Lemma universal_newlines_Forall (P : Z → Prop) s :
  P LF → Forall P s → Forall P (universal_newlines s).
Proof.
  intros HLF. remember (length s) as n eqn:Hn. revert s Hn.
  induction n as [n IH] using lt_wf_ind. intros s -> Hs.
  destruct s as [|ch rest]; [done|]. apply Forall_cons in Hs as [Hch Hrest].
  simpl. destruct (ch =? CR).
  - apply Forall_cons. split; [done|].
    destruct rest as [|ch' rest']; [done|].
    apply Forall_cons in Hrest as [Hch' Hrest'].
    destruct (ch' =? LF).
    + eapply IH; [|reflexivity|done]. simpl. lia.
    + eapply IH; [|reflexivity|]. { simpl. lia. } by apply Forall_cons.
  - apply Forall_cons. split; [done|].
    eapply IH; [|reflexivity|done]. simpl. lia.
Qed.

(** On this host [write_text] leaves the text as it is. *)
Lemma translate_newlines_id s : translate_newlines s = s.
Proof.
  unfold translate_newlines. induction s as [|ch rest IH]; [done|].
  rewrite bind_cons, IH. by destruct (Z.eqb_spec ch LF) as [->|].
Qed.

(** Whatever [read_text] returned can be written back once normalized. *)
Lemma normalize_encodable data text :
  text_of_bytes data = Some text → is_Some (bytes_of_text (normalize text)).
Proof.
  unfold text_of_bytes, bytes_of_text. intros Hdec.
  apply fmap_Some in Hdec as (s & Hdec%utf8_decode_scalar & ->).
  rewrite translate_newlines_id.
  apply utf8_encode_scalar. unfold normalize, rstrip.
  apply Forall_app. split; [|by apply Forall_singleton].
  by apply Forall_take, universal_newlines_Forall.
Qed.

Lemma bytes_of_text_encode s : bytes_of_text s = utf8_encode s.
Proof. unfold bytes_of_text. by rewrite translate_newlines_id. Qed.

End Codec.

(** * The codec, both ways *)

Section CodecRoundTrip.

Implicit Types (s : str) (data : bytes) (ch : Z).

(** A tag whose low [k] bits are clear is added to a [k]-bit payload by
    taking their bitwise or. *)
Lemma lor_tag a x k :
  0 ≤ k → 0 ≤ x < 2 ^ k → Z.lor (a * 2 ^ k) x = a * 2 ^ k + x.
Proof.
  intros Hk Hx.
  assert (Z.land (a * 2 ^ k) x = 0) as Hland.
  { apply Z.bits_inj'. intros n Hn. rewrite Z.land_spec, Z.bits_0.
    destruct (Z.lt_ge_cases n k) as [Hlt|Hge].
    - by rewrite Z.mul_pow2_bits_low.
    - rewrite <-(Z.mod_small x (2 ^ k)) by lia.
      rewrite Z.mod_pow2_bits_high by lia. apply andb_false_r. }
  by rewrite <-Z.lxor_lor, <-Z.add_nocarry_lxor.
Qed.

Lemma div_64 q r : 0 ≤ r < 64 → (q * 64 + r) / 64 = q.
Proof. intros Hr. symmetry. apply Z.div_unique with r; lia. Qed.

Lemma mod_64 q r : 0 ≤ r < 64 → (q * 64 + r) mod 64 = r.
Proof. intros Hr. symmetry. apply Z.mod_unique with q; lia. Qed.

Lemma payload_6 ch : Z.land ch 0x3F = ch mod 64.
Proof. change 0x3F with (Z.ones 6). by rewrite Z.land_ones. Qed.

Lemma shiftr_6 ch : Z.shiftr ch 6 = ch / 64.
Proof. by rewrite Z.shiftr_div_pow2. Qed.

Lemma shiftr_12 ch : Z.shiftr ch 12 = ch / 64 / 64.
Proof. rewrite Z.shiftr_div_pow2, Z.div_div by lia. done. Qed.

Lemma shiftr_18 ch : Z.shiftr ch 18 = ch / 64 / 64 / 64.
Proof. rewrite Z.shiftr_div_pow2, !Z.div_div by lia. done. Qed.

Lemma tag_80 r : 0 ≤ r < 64 → Z.lor 0x80 r = 0x80 + r.
Proof. intros Hr. by apply (lor_tag 2 r 6). Qed.

Lemma tag_C0 q : 0 ≤ q < 32 → Z.lor 0xC0 q = 0xC0 + q.
Proof. intros Hq. by apply (lor_tag 6 q 5). Qed.

Lemma tag_E0 q : 0 ≤ q < 16 → Z.lor 0xE0 q = 0xE0 + q.
Proof. intros Hq. by apply (lor_tag 14 q 4). Qed.

Lemma tag_F0 q : 0 ≤ q < 8 → Z.lor 0xF0 q = 0xF0 + q.
Proof. intros Hq. by apply (lor_tag 30 q 3). Qed.

Ltac settle_tests :=
  repeat match goal with
  | |- context [?a =? ?b] => destruct (Z.eqb_spec a b); try lia
  | |- context [?a <=? ?b] => destruct (Z.leb_spec a b); try lia
  | |- context [?a <? ?b] => destruct (Z.ltb_spec a b); try lia
  end.

(** The encoder, on a code point given by its six-bit groups. *)
Lemma utf8_encode_char_1 ch :
  0 ≤ ch < 0x80 → utf8_encode_char ch = Some [ch].
Proof. intros H. unfold utf8_encode_char. by settle_tests. Qed.

Lemma utf8_encode_char_2 q r :
  2 ≤ q < 32 → 0 ≤ r < 64 →
  utf8_encode_char (q * 64 + r) = Some [0xC0 + q; 0x80 + r].
Proof.
  intros Hq Hr. unfold utf8_encode_char.
  rewrite shiftr_6, payload_6, div_64, mod_64 by done.
  rewrite tag_C0, tag_80 by lia. by settle_tests.
Qed.

Lemma utf8_encode_char_3 q r1 r0 :
  0 ≤ q < 16 → 0 ≤ r1 < 64 → 0 ≤ r0 < 64 →
  0x800 ≤ (q * 64 + r1) * 64 + r0 →
  ¬ (0xD800 ≤ (q * 64 + r1) * 64 + r0 ≤ 0xDFFF) →
  utf8_encode_char ((q * 64 + r1) * 64 + r0)
  = Some [0xE0 + q; 0x80 + r1; 0x80 + r0].
Proof.
  intros Hq Hr1 Hr0 Hlo Hs. unfold utf8_encode_char.
  rewrite shiftr_12, shiftr_6, !payload_6.
  repeat (rewrite ?div_64, ?mod_64 by done).
  rewrite tag_E0, !tag_80 by lia. by settle_tests.
Qed.

Lemma utf8_encode_char_4 q r2 r1 r0 :
  0 ≤ q < 8 → 0 ≤ r2 < 64 → 0 ≤ r1 < 64 → 0 ≤ r0 < 64 →
  0x10000 ≤ ((q * 64 + r2) * 64 + r1) * 64 + r0 ≤ 0x10FFFF →
  utf8_encode_char (((q * 64 + r2) * 64 + r1) * 64 + r0)
  = Some [0xF0 + q; 0x80 + r2; 0x80 + r1; 0x80 + r0].
Proof.
  intros Hq Hr2 Hr1 Hr0 Hc. unfold utf8_encode_char.
  rewrite shiftr_18, shiftr_12, shiftr_6, !payload_6.
  repeat (rewrite ?div_64, ?mod_64 by done).
  rewrite tag_F0, !tag_80 by lia. by settle_tests.
Qed.


(** The decoder, on the bytes of one character. *)
Lemma utf8_decode_1 ch rest :
  0 ≤ ch < 0x80 → utf8_decode (ch :: rest) = cons ch <$> utf8_decode rest.
Proof. intros H. cbn [utf8_decode]. by settle_tests. Qed.

Lemma utf8_decode_2 q r rest :
  2 ≤ q < 32 → 0 ≤ r < 64 →
  utf8_decode (0xC0 + q :: 0x80 + r :: rest)
  = cons (q * 64 + r) <$> utf8_decode rest.
Proof.
  intros Hq Hr. cbn [utf8_decode]. unfold continuation.
  rewrite !Z.shiftl_mul_pow2 by lia. change (2 ^ 6) with 64.
  settle_tests. cbn [andb]. do 2 f_equal. lia.
Qed.

Lemma utf8_decode_3 q r1 r0 rest :
  0 ≤ q < 16 → 0 ≤ r1 < 64 → 0 ≤ r0 < 64 →
  0x800 ≤ (q * 64 + r1) * 64 + r0 →
  ¬ (0xD800 ≤ (q * 64 + r1) * 64 + r0 ≤ 0xDFFF) →
  utf8_decode (0xE0 + q :: 0x80 + r1 :: 0x80 + r0 :: rest)
  = cons ((q * 64 + r1) * 64 + r0) <$> utf8_decode rest.
Proof.
  intros Hq Hr1 Hr0 Hlo Hs. cbn [utf8_decode]. unfold continuation.
  rewrite !Z.shiftl_mul_pow2 by lia.
  change (2 ^ 6) with 64. change (2 ^ 12) with 4096.
  settle_tests; cbn [andb]; do 2 f_equal; lia.
Qed.

Lemma utf8_decode_4 q r2 r1 r0 rest :
  0 ≤ q < 8 → 0 ≤ r2 < 64 → 0 ≤ r1 < 64 → 0 ≤ r0 < 64 →
  0x10000 ≤ ((q * 64 + r2) * 64 + r1) * 64 + r0 ≤ 0x10FFFF →
  utf8_decode (0xF0 + q :: 0x80 + r2 :: 0x80 + r1 :: 0x80 + r0 :: rest)
  = cons (((q * 64 + r2) * 64 + r1) * 64 + r0) <$> utf8_decode rest.
Proof.
  intros Hq Hr2 Hr1 Hr0 Hc. cbn [utf8_decode]. unfold continuation.
  rewrite !Z.shiftl_mul_pow2 by lia.
  change (2 ^ 6) with 64. change (2 ^ 12) with 4096.
  change (2 ^ 18) with 262144.
  settle_tests; cbn [andb]; do 2 f_equal; lia.
Qed.


Lemma six_bit_groups ch : ∃ q r, ch = q * 64 + r ∧ 0 ≤ r < 64.
Proof.
  exists (ch / 64), (ch mod 64).
  split; [rewrite Z.mul_comm; by apply Z.div_mod|by apply Z.mod_pos_bound].
Qed.

Lemma utf8_encode_cons ch s :
  utf8_encode (ch :: s)
  = bc ← utf8_encode_char ch; ds ← utf8_encode s; Some (bc ++ ds).
Proof.
  unfold utf8_encode. cbn [mapM].
  destruct (utf8_encode_char ch) as [bc|]; [|done]. cbn.
  by destruct (mapM utf8_encode_char s).
Qed.

(** Only scalar values are encoded. *)
Lemma utf8_encode_char_Some ch bc :
  utf8_encode_char ch = Some bc → scalar_value ch = true.
Proof.
  unfold utf8_encode_char. intros H. apply scalar_value_spec.
  repeat match type of H with
  | context [?a <=? ?b] => destruct (Z.leb_spec a b)
  | context [?a <? ?b] => destruct (Z.ltb_spec a b)
  end; cbn [andb] in H; try discriminate H; lia.
Qed.

(** Decoding what the encoder made of one character gives it back. *)
Lemma utf8_decode_encoded ch bc rest :
  utf8_encode_char ch = Some bc →
  utf8_decode (bc ++ rest) = cons ch <$> utf8_decode rest.
Proof.
  intros Henc.
  pose proof (utf8_encode_char_Some _ _ Henc) as [Hr Hs]%scalar_value_spec.
  destruct (Z.lt_ge_cases ch 0x80) as [H1|H1].
  { rewrite utf8_encode_char_1 in Henc by lia. injection Henc as <-.
    apply utf8_decode_1. lia. }
  destruct (six_bit_groups ch) as (q1 & r0 & -> & Hr0).
  destruct (Z.lt_ge_cases (q1 * 64 + r0) 0x800) as [H2|H2].
  { rewrite utf8_encode_char_2 in Henc by lia. injection Henc as <-.
    apply utf8_decode_2; lia. }
  destruct (six_bit_groups q1) as (q2 & r1 & -> & Hr1).
  destruct (Z.lt_ge_cases ((q2 * 64 + r1) * 64 + r0) 0x10000) as [H3|H3].
  { rewrite utf8_encode_char_3 in Henc by lia. injection Henc as <-.
    apply utf8_decode_3; lia. }
  destruct (six_bit_groups q2) as (q3 & r2 & -> & Hr2).
  rewrite utf8_encode_char_4 in Henc by lia. injection Henc as <-.
  apply utf8_decode_4; lia.
Qed.

(** Writing then reading: the decoder inverts the encoder. *)
Lemma utf8_decode_encode s data :
  utf8_encode s = Some data → utf8_decode data = Some s.
Proof.
  revert data. induction s as [|ch s IH]; intros data.
  { by intros [= <-]. }
  rewrite utf8_encode_cons.
  destruct (utf8_encode_char ch) as [bc|] eqn:Hch; [|done]. cbn.
  destruct (utf8_encode s) as [ds|]; [|done]. cbn. intros [= <-].
  by rewrite (utf8_decode_encoded _ _ _ Hch), (IH ds).
Qed.

Ltac encode_step IH Hdec :=
  match type of Hdec with
  | context [utf8_decode ?t] =>
      let E := fresh "E" in
      let s' := fresh "s" in
      destruct (utf8_decode t) as [s'|] eqn:E; simpl in Hdec; [|done];
      injection Hdec as <-; rewrite utf8_encode_cons;
      rewrite (IH (length t) ltac:(simpl; lia) t s' eq_refl E)
  end.

(** Reading then writing: the encoder inverts the decoder, so a valid
    file is the only encoding of its text. *)
Lemma utf8_encode_decode data s :
  utf8_decode data = Some s → utf8_encode s = Some data.
Proof.
  remember (length data) as n eqn:Hn. revert data s Hn.
  induction n as [n IH] using lt_wf_ind. intros data s -> Hdec.
  destruct data as [|b0 t0]; simpl in Hdec.
  { by injection Hdec as <-. }
  destruct ((0 <=? b0) && (b0 <? 0x80)) eqn:H1.
  { apply andb_true_iff in H1 as [?%Z.leb_le ?%Z.ltb_lt].
    encode_step IH Hdec. by rewrite utf8_encode_char_1 by lia. }
  destruct ((0xC2 <=? b0) && (b0 <=? 0xDF)) eqn:H2.
  { destruct t0 as [|b1 t1]; [done|].
    destruct (continuation 0x80 0xBF b1) eqn:C1; [|done].
    unfold continuation in *.
    apply andb_true_iff in H2 as [?%Z.leb_le ?%Z.leb_le].
    apply andb_true_iff in C1 as [?%Z.leb_le ?%Z.leb_le].
    encode_step IH Hdec.
    replace (Z.shiftl b0 6 + b1 - (Z.shiftl 0xC0 6 + 0x80))
      with ((b0 - 0xC0) * 64 + (b1 - 0x80))
      by (rewrite !Z.shiftl_mul_pow2 by lia; lia).
    rewrite utf8_encode_char_2 by lia. cbn. repeat f_equal; lia. }
  destruct ((0xE0 <=? b0) && (b0 <=? 0xEF)) eqn:H3.
  { destruct t0 as [|b1 [|b2 t2]]; [done..|].
    destruct (continuation _ _ b1 && continuation 0x80 0xBF b2) eqn:C; [|done].
    unfold continuation in *.
    apply andb_true_iff in H3 as [?%Z.leb_le ?%Z.leb_le].
    apply andb_true_iff in C as [C1 C2].
    apply andb_true_iff in C1 as [?%Z.leb_le ?%Z.leb_le].
    apply andb_true_iff in C2 as [?%Z.leb_le ?%Z.leb_le].
    encode_step IH Hdec.
    replace (Z.shiftl b0 12 + Z.shiftl b1 6 + b2
             - (Z.shiftl 0xE0 12 + Z.shiftl 0x80 6 + 0x80))
      with (((b0 - 0xE0) * 64 + (b1 - 0x80)) * 64 + (b2 - 0x80))
      by (rewrite !Z.shiftl_mul_pow2 by lia; lia).
    rewrite utf8_encode_char_3
      by (destruct (Z.eqb_spec b0 0xE0), (Z.eqb_spec b0 0xED); lia).
    cbn. repeat f_equal; lia. }
  destruct ((0xF0 <=? b0) && (b0 <=? 0xF4)) eqn:H4; [|done].
  destruct t0 as [|b1 [|b2 [|b3 t3]]]; [done..|].
  destruct (continuation _ _ b1 && continuation 0x80 0xBF b2
            && continuation 0x80 0xBF b3) eqn:C; [|done].
  unfold continuation in *.
  apply andb_true_iff in H4 as [?%Z.leb_le ?%Z.leb_le].
  apply andb_true_iff in C as [C C3]. apply andb_true_iff in C as [C1 C2].
  apply andb_true_iff in C1 as [?%Z.leb_le ?%Z.leb_le].
  apply andb_true_iff in C2 as [?%Z.leb_le ?%Z.leb_le].
  apply andb_true_iff in C3 as [?%Z.leb_le ?%Z.leb_le].
  encode_step IH Hdec.
  replace (Z.shiftl b0 18 + Z.shiftl b1 12 + Z.shiftl b2 6 + b3
           - (Z.shiftl 0xF0 18 + Z.shiftl 0x80 12 + Z.shiftl 0x80 6 + 0x80))
    with ((((b0 - 0xF0) * 64 + (b1 - 0x80)) * 64 + (b2 - 0x80)) * 64
          + (b3 - 0x80))
    by (rewrite !Z.shiftl_mul_pow2 by lia; lia).
  rewrite utf8_encode_char_4
    by (destruct (Z.eqb_spec b0 0xF0), (Z.eqb_spec b0 0xF4); lia).
  cbn. repeat f_equal; lia.
Qed.


(** A byte below 0x80 in the encoding of a character is that character:
    the bytes of longer sequences all have their high bit set. *)
Lemma utf8_encode_char_ascii ch bc b :
  utf8_encode_char ch = Some bc → b ∈ bc → b < 0x80 → b = ch.
Proof.
  intros Henc Hin Hb.
  pose proof (utf8_encode_char_Some _ _ Henc) as [Hr Hs]%scalar_value_spec.
  destruct (Z.lt_ge_cases ch 0x80) as [H1|H1].
  { rewrite utf8_encode_char_1 in Henc by lia. injection Henc as <-.
    by apply list_elem_of_singleton in Hin. }
  exfalso.
  destruct (six_bit_groups ch) as (q1 & r0 & -> & Hr0).
  destruct (Z.lt_ge_cases (q1 * 64 + r0) 0x800) as [H2|H2].
  { rewrite utf8_encode_char_2 in Henc by lia. injection Henc as <-.
    repeat (apply elem_of_cons in Hin as [->|Hin]; [lia|]).
    by apply elem_of_nil in Hin. }
  destruct (six_bit_groups q1) as (q2 & r1 & -> & Hr1).
  destruct (Z.lt_ge_cases ((q2 * 64 + r1) * 64 + r0) 0x10000) as [H3|H3].
  { rewrite utf8_encode_char_3 in Henc by lia. injection Henc as <-.
    repeat (apply elem_of_cons in Hin as [->|Hin]; [lia|]).
    by apply elem_of_nil in Hin. }
  destruct (six_bit_groups q2) as (q3 & r2 & -> & Hr2).
  rewrite utf8_encode_char_4 in Henc by lia. injection Henc as <-.
  repeat (apply elem_of_cons in Hin as [->|Hin]; [lia|]).
  by apply elem_of_nil in Hin.
Qed.

Lemma utf8_encode_ascii s data b :
  utf8_encode s = Some data → b ∈ data → b < 0x80 → b ∈ s.
Proof.
  revert data. induction s as [|ch s IH]; intros data.
  { intros [= <-] Hin. by apply elem_of_nil in Hin. }
  rewrite utf8_encode_cons.
  destruct (utf8_encode_char ch) as [bc|] eqn:Hch; [|done]. cbn.
  destruct (utf8_encode s) as [ds|]; [|done]. cbn. intros [= <-].
  intros [Hin|Hin]%elem_of_app Hb; apply elem_of_cons.
  - left. by eapply utf8_encode_char_ascii.
  - right. by eapply IH.
Qed.

(** X1 (codec round trip).  Bytes decode to a text exactly when that
    text encodes to those bytes: the strict decoder and the encoder are
    inverse to each other. *)
Theorem utf8_codec_inverse data s :
  utf8_decode data = Some s ↔ utf8_encode s = Some data.
Proof. split; [apply utf8_encode_decode|apply utf8_decode_encode]. Qed.

End CodecRoundTrip.

(** * Text read and text written *)

Section Text.

Implicit Types (s p line text : str) (ch : Z).

(** *** Universal newlines *)

(** Text read in text mode holds no carriage return. *)
Lemma universal_newlines_no_CR s : CR ∉ universal_newlines s.
Proof.
  remember (length s) as n eqn:Hn. revert s Hn.
  induction n as [n IH] using lt_wf_ind. intros s ->.
  destruct s as [|ch rest]; [apply not_elem_of_nil|].
  cbn [universal_newlines]. destruct (Z.eqb_spec ch CR) as [->|Hne].
  - apply not_elem_of_cons. split; [done|].
    destruct rest as [|ch' rest']; [apply not_elem_of_nil|].
    destruct (ch' =? LF); (eapply IH; [|reflexivity]); simpl; lia.
  - apply not_elem_of_cons. split; [done|].
    eapply IH; [|reflexivity]. simpl. lia.
Qed.

(** Text without carriage returns is read as it is. *)
Lemma universal_newlines_id s : CR ∉ s → universal_newlines s = s.
Proof.
  induction s as [|ch rest IH]; [done|].
  intros [Hne Hrest]%not_elem_of_cons. cbn [universal_newlines].
  destruct (Z.eqb_spec ch CR) as [->|_]; [done|]. by rewrite IH.
Qed.

Lemma rstrip_no_CR text : CR ∉ text → CR ∉ rstrip text.
Proof.
  intros Hno Hin. apply Hno. unfold rstrip in Hin.
  rewrite <-(take_drop (rstrip_end text (length text)) text).
  apply elem_of_app. by left.
Qed.

Lemma normalize_no_CR text : CR ∉ text → CR ∉ normalize text.
Proof.
  intros Hno. unfold normalize. rewrite elem_of_app, list_elem_of_singleton.
  intros [Hin|Heq]; [by apply (rstrip_no_CR text)|discriminate Heq].
Qed.

(** *** Fixed points of the normalization *)

(** X3 (fixed points of the normalization).  The normalization leaves a
    text as it is exactly when the text ends in one newline that no white
    space precedes. *)
Theorem normalize_fixed_points text :
  normalize text = text
  ↔ ∃ p, text = p ++ [LF] ∧ ends_in_space p = false.
Proof.
  split.
  - intros Heq. exists (rstrip text). split; [done|apply rstrip_ends].
  - intros (p & -> & Hp). unfold normalize.
    rewrite rstrip_snoc. cbn. by rewrite rstrip_fixed.
Qed.

(** *** Lines *)

(** With no carriage return about, text that ends in a newline has one
    line for each line boundary in it. *)
Lemma splitlines_from_count line s :
  CR ∉ s →
  length (splitlines_from line (s ++ [LF])) = S (length (filter (λ ch, Py_UNICODE_ISLINEBREAK ch = true) s)).
Proof.
  revert line. induction s as [|ch rest IH]; intros line Hno; [done|].
  apply not_elem_of_cons in Hno as [Hne Hrest].
  rewrite filter_cons. cbn [app splitlines_from].
  destruct (Py_UNICODE_ISLINEBREAK ch) eqn:Hbr.
  - rewrite decide_True by done.
    destruct (rest ++ [LF]) as [|ch' rest'] eqn:E.
    { by apply app_eq_nil in E as [_ ?]. }
    destruct (Z.eqb_spec ch CR) as [->|_]; [done|].
    cbn [andb length]. by rewrite IH.
  - rewrite decide_False by done. by apply IH.
Qed.

Lemma lines_join_cons (line : str) (lines : list str) :
  mjoin (line :: lines) = line ++ mjoin lines.
Proof. reflexivity. Qed.

(** No line holds a line boundary, and the lines put end to end are the
    text without its line boundaries. *)
Lemma splitlines_from_lines line s :
  Forall (λ ch, Py_UNICODE_ISLINEBREAK ch = false) line →
  Forall (Forall (λ ch, Py_UNICODE_ISLINEBREAK ch = false))
    (splitlines_from line s)
  ∧ mjoin (splitlines_from line s)
    = line ++ filter (λ ch, Py_UNICODE_ISLINEBREAK ch = false) s.
Proof.
  remember (length s) as n eqn:Hn. revert line s Hn.
  induction n as [n IH] using lt_wf_ind. intros line s -> Hline.
  destruct s as [|ch rest].
  { destruct line; [done|]. split; [by apply Forall_singleton|].
    cbn. by rewrite !app_nil_r. }
  cbn [splitlines_from]. rewrite filter_cons.
  destruct (Py_UNICODE_ISLINEBREAK ch) eqn:Hbr.
  - rewrite decide_False by done.
    destruct rest as [|ch' rest'].
    { split; [by apply Forall_singleton|]. cbn. by rewrite app_nil_r. }
    destruct (Z.eqb_spec ch CR) as [->|_];
      [destruct (Z.eqb_spec ch' LF) as [->|_]|]; cbn [andb].
    + destruct (IH (length rest') ltac:(simpl; lia) [] rest' eq_refl)
        as [Hl Hj]; [done|].
      split; [by apply Forall_cons|].
      rewrite filter_cons, decide_False by done. by rewrite lines_join_cons, Hj.
    + destruct (IH (length (ch' :: rest')) ltac:(simpl; lia) []
                  (ch' :: rest') eq_refl) as [Hl Hj]; [done|].
      split; [by apply Forall_cons|]. by rewrite lines_join_cons, Hj.
    + destruct (IH (length (ch' :: rest')) ltac:(simpl; lia) []
                  (ch' :: rest') eq_refl) as [Hl Hj]; [done|].
      split; [by apply Forall_cons|]. by rewrite lines_join_cons, Hj.
  - rewrite decide_True by done.
    destruct (IH (length rest) ltac:(simpl; lia) (line ++ [ch]) rest eq_refl)
      as [Hl Hj].
    { apply Forall_app. split; [done|]. by apply Forall_singleton. }
    split; [done|]. by rewrite Hj, <-(assoc_L (++)).
Qed.

Lemma text_of_bytes_no_CR data text :
  text_of_bytes data = Some text → CR ∉ text.
Proof.
  unfold text_of_bytes. intros (s & _ & ->)%fmap_Some.
  apply universal_newlines_no_CR.
Qed.

(** X2 (universal newlines).  The text read from a file holds no carriage
    return, and a file that decodes without one is read as it is. *)
Theorem read_text_newlines :
  (∀ data text, text_of_bytes data = Some text → CR ∉ text)
  ∧ (∀ data s,
       utf8_decode data = Some s → CR ∉ s → text_of_bytes data = Some s).
Proof.
  split; [apply text_of_bytes_no_CR|].
  intros data s Hdec Hcr. unfold text_of_bytes. rewrite Hdec. cbn.
  by rewrite universal_newlines_id.
Qed.

(** X4 (lines).  No line of [splitlines] holds a line boundary, and the
    lines put end to end are the text without its line boundaries:
    nothing else is lost and nothing is added. *)
Theorem splitlines_loses_only_boundaries s :
  Forall (Forall (λ ch, Py_UNICODE_ISLINEBREAK ch = false)) (splitlines s)
  ∧ mjoin (splitlines s)
    = filter (λ ch, Py_UNICODE_ISLINEBREAK ch = false) s.
Proof. by apply (splitlines_from_lines []). Qed.

(** What was written decodes to the normalized text. *)
Lemma bytes_of_text_read_back data text data' :
  text_of_bytes data = Some text →
  bytes_of_text (normalize text) = Some data' →
  text_of_bytes data' = Some (normalize text).
Proof.
  intros Htext Hb. rewrite bytes_of_text_encode in Hb.
  unfold text_of_bytes. rewrite (utf8_decode_encode _ _ Hb). cbn.
  f_equal. apply universal_newlines_id, normalize_no_CR.
  by eapply text_of_bytes_no_CR.
Qed.

Lemma normalize_idemp text : normalize (normalize text) = normalize text.
Proof. unfold normalize at 1 3. by rewrite normalize_rstrip. Qed.

End Text.

(** * Properties of a run *)

Section Run.

Variable env : host.
Variable script_file : path.

Local Abbreviation TEMPLATE := (TEMPLATE_PATH script_file).
Local Abbreviation script := (main env script_file).
Local Abbreviation process := (run env script_file).

Lemma TEMPLATE_neq_TARGET : TEMPLATE ≠ TARGET_PATH.
Proof.
  intros E. apply (f_equal last) in E. unfold TEMPLATE_PATH, with_name in E.
  rewrite last_snoc in E. discriminate E.
Qed.

Lemma confirmation_eq k :
  "Wrote " +:+ path_str TARGET_PATH +:+ " (" +:+ pretty k +:+ " lines)"
  = confirmation k.
Proof. reflexivity. Qed.

(** What the host makes of a write. *)
Lemma stored_fits data : fits env data = true → stored env data = data.
Proof.
  unfold fits, stored. destruct (write_capacity env) as [n|]; [|done].
  intros Hn%bool_decide_eq_true. by apply take_ge.
Qed.

Lemma renamed_links m r wr data (l : list path) q :
  foldr (λ q acc, <[q := renamed m r wr data q]> acc) m l !! q
  = if decide (q ∈ l) then Some (renamed m r wr data q) else m !! q.
Proof.
  induction l as [|a l IH]; cbn [foldr].
  { rewrite decide_False; [done|apply not_elem_of_nil]. }
  rewrite lookup_insert. destruct (decide (a = q)) as [->|Hne].
  - rewrite decide_True; [done|apply elem_of_cons; by left].
  - rewrite IH. destruct (decide (q ∈ l)) as [Hin|Hout].
    + rewrite decide_True; [done|apply elem_of_cons; by right].
    + rewrite decide_False; [done|].
      intros [->|Hin]%elem_of_cons; [by apply Hne|by apply Hout].
Qed.

(** A write reaches the file under its path and its other names, and
    nothing else. *)
Lemma store_lookup p r wr data m q :
  store env p r wr data m !! q
  = if decide (p = q) then Some (File r wr data)
    else if decide (q ∈ other_names env p)
         then Some (renamed m r wr data q)
         else m !! q.
Proof.
  unfold store. rewrite lookup_insert.
  destruct (decide (p = q)); [done|apply renamed_links].
Qed.

Lemma store_lookup_self p r wr data m :
  store env p r wr data m !! p = Some (File r wr data).
Proof. rewrite store_lookup. by rewrite decide_True. Qed.

Lemma file_data_store p r wr data m :
  file_data (store env p r wr data m) p = Some data.
Proof. unfold file_data. by rewrite store_lookup_self. Qed.

(** The content that was there does not matter to a write. *)
Lemma store_over p r wr data m n :
  store env p r wr data (<[p := n]> m) = store env p r wr data m.
Proof.
  apply map_eq. intros q. rewrite !store_lookup.
  destruct (decide (p = q)) as [|Hne]; [done|].
  unfold renamed. by rewrite lookup_insert_ne.
Qed.

(** Writing the same bytes again changes nothing. *)
Lemma store_again p r wr data m :
  store env p r wr data (store env p r wr data m) = store env p r wr data m.
Proof.
  apply map_eq. intros q. rewrite (store_lookup _ _ _ _ (store _ _ _ _ _ _)).
  destruct (decide (p = q)) as [->|Hne]; [by rewrite store_lookup_self|].
  destruct (decide (q ∈ other_names env p)) as [Hin|Hout]; [|done].
  rewrite store_lookup, decide_False, decide_True by done.
  unfold renamed at 1. rewrite store_lookup, decide_False, decide_True by done.
  unfold renamed. by destruct (m !! q) as [[]|].
Qed.

(** How each library call acts on the world. *)
Lemma bind_run {A B} (m : py A) (f : A → py B) w :
  (m ≫= f) w =
  match m w with
  | (Return a, w') => f a w'
  | (Raise e, w') => (Raise e, w')
  end.
Proof. reflexivity. Qed.

Lemma Path_exists_run p w :
  Path_exists p w =
  (Return (bool_decide (is_Some (fs w !! p))),
   World (fs w) (stdout w) (trace w ++ [Stat p])).
Proof. reflexivity. Qed.

Lemma Path_read_text_run p w :
  Path_read_text p w =
  match fs w !! p with
  | None =>
      (Raise (FileNotFoundError (path_str p)),
       World (fs w) (stdout w) (trace w ++ [OpenRead p false]))
  | Some (Dir _) =>
      (Raise (IsADirectoryError p),
       World (fs w) (stdout w) (trace w ++ [OpenRead p false]))
  | Some (File false _ _) =>
      (Raise (PermissionError p),
       World (fs w) (stdout w) (trace w ++ [OpenRead p false]))
  | Some (File true _ data) =>
      let w' := World (fs w) (stdout w) (trace w ++ [OpenRead p true]) in
      match text_of_bytes data with
      | Some text => (Return text, w')
      | None => (Raise UnicodeDecodeError, w')
      end
  end.
Proof.
  unfold Path_read_text, read_bytes, get_fs. rewrite !bind_run.
  destruct (fs w !! p) as [[[] wr data|wr]|]; try reflexivity.
  unfold mbind, py_bind, log, mret, py_ret, raise.
  by destruct (text_of_bytes data).
Qed.

Lemma Path_write_text_run p s w :
  Path_write_text env p s w =
  match open_w (fs w) p with
  | inl e =>
      (Raise e, World (fs w) (stdout w) (trace w ++ [OpenWrite p false]))
  | inr (r, wr) =>
      match bytes_of_text s with
      | Some data =>
          if fits env data then
            (Return (),
             World (store env p r wr data (fs w)) (stdout w)
               (trace w ++ [OpenWrite p true]))
          else
            (Raise (OSError "No space left on device"),
             World (store env p r wr (stored env data) (fs w)) (stdout w)
               (trace w ++ [OpenWrite p false]))
      | None =>
          (Raise UnicodeEncodeError,
           World (store env p r wr [] (fs w)) (stdout w)
             (trace w ++ [OpenWrite p false]))
      end
  end.
Proof.
  unfold Path_write_text, get_fs. rewrite bind_run.
  destruct (open_w (fs w) p) as [e|[r wr]]; [reflexivity|].
  destruct (bytes_of_text s) as [data|]; [|reflexivity].
  destruct (fits env data) eqn:Hfit; [|reflexivity].
  unfold mbind, py_bind, put_file, log. cbn. by rewrite stored_fits.
Qed.

(** The whole behaviour of [main], one case per way it can end. *)
Lemma main_cases w :
  script w =
  match fs w !! TEMPLATE with
  | None =>
      (Raise (FileNotFoundError
                ("Template not found: " +:+ path_str TEMPLATE)),
       World (fs w) (stdout w) (trace w ++ [Stat TEMPLATE]))
  | Some (Dir _) =>
      (Raise (IsADirectoryError TEMPLATE),
       World (fs w) (stdout w)
         (trace w ++ [Stat TEMPLATE; OpenRead TEMPLATE false]))
  | Some (File false _ _) =>
      (Raise (PermissionError TEMPLATE),
       World (fs w) (stdout w)
         (trace w ++ [Stat TEMPLATE; OpenRead TEMPLATE false]))
  | Some (File true _ data) =>
      match text_of_bytes data with
      | None =>
          (Raise UnicodeDecodeError,
           World (fs w) (stdout w)
             (trace w ++ [Stat TEMPLATE; OpenRead TEMPLATE true]))
      | Some text =>
          match open_w (fs w) TARGET_PATH with
          | inl e =>
              (Raise e,
               World (fs w) (stdout w)
                 (trace w ++ [Stat TEMPLATE; OpenRead TEMPLATE true;
                              OpenWrite TARGET_PATH false]))
          | inr (r, wr) =>
              match bytes_of_text (normalize text) with
              | None =>
                  (Raise UnicodeEncodeError,
                   World (store env TARGET_PATH r wr [] (fs w)) (stdout w)
                     (trace w ++ [Stat TEMPLATE; OpenRead TEMPLATE true;
                                  OpenWrite TARGET_PATH false]))
              | Some data' =>
                  if fits env data' then
                    match stdout_sink env with
                    | RejectsWrite =>
                        (Raise (OSError "Cannot write to standard output"),
                         World (store env TARGET_PATH r wr data' (fs w))
                           (stdout w)
                           (trace w ++ [Stat TEMPLATE; OpenRead TEMPLATE true;
                                        OpenWrite TARGET_PATH true]))
                    | _ =>
                        (Return (),
                         World (store env TARGET_PATH r wr data' (fs w))
                           (stdout w
                            ++ [confirmation (line_count (normalize text))])
                           (trace w ++ [Stat TEMPLATE; OpenRead TEMPLATE true;
                                        OpenWrite TARGET_PATH true]))
                    end
                  else
                    (Raise (OSError "No space left on device"),
                     World (store env TARGET_PATH r wr (stored env data')
                              (fs w))
                       (stdout w)
                       (trace w ++ [Stat TEMPLATE; OpenRead TEMPLATE true;
                                    OpenWrite TARGET_PATH false]))
              end
          end
      end
  end.
Proof.
  unfold main. rewrite bind_run, Path_exists_run.
  destruct (fs w !! TEMPLATE) as [n|] eqn:E; [|by rewrite bool_decide_false].
  rewrite bool_decide_true by done. cbn [negb].
  rewrite bind_run, Path_read_text_run. cbn [fs stdout trace]. rewrite E.
  destruct n as [[] wr data|wr]; rewrite <-?(assoc_L (++)); try reflexivity.
  destruct (text_of_bytes data) as [text|]; cbn zeta; [|reflexivity].
  fold (normalize text).
  rewrite bind_run, Path_write_text_run. cbn [fs stdout trace].
  destruct (open_w (fs w) TARGET_PATH) as [e|[r wr']];
    rewrite <-?(assoc_L (++)); [reflexivity|].
  destruct (bytes_of_text (normalize text)) as [data'|]; [|reflexivity].
  destruct (fits env data'); [|reflexivity].
  unfold print. by destruct (stdout_sink env).
Qed.

(** A run that exits with status 0 read the template, decoded it, opened
    the destination, wrote the normalized text there whole and had its
    confirmation accepted. *)
Lemma run_ok_inv w w' :
  process w = (0, None, w') →
  ∃ wr data text r wr' data',
    fs w !! TEMPLATE = Some (File true wr data)
    ∧ text_of_bytes data = Some text
    ∧ open_w (fs w) TARGET_PATH = inr (r, wr')
    ∧ bytes_of_text (normalize text) = Some data'
    ∧ fits env data' = true
    ∧ stdout_sink env = Accepts
    ∧ w' = World (store env TARGET_PATH r wr' data' (fs w))
             (stdout w ++ [confirmation (line_count (normalize text))])
             (trace w ++ [Stat TEMPLATE; OpenRead TEMPLATE true;
                          OpenWrite TARGET_PATH true]).
Proof.
  unfold run. rewrite main_cases.
  destruct (fs w !! TEMPLATE) as [[[] wr data|wr]|] eqn:Ht; try done.
  destruct (text_of_bytes data) as [text|] eqn:Hd; [|done].
  destruct (open_w (fs w) TARGET_PATH) as [e|[r wr']] eqn:Ho; [done|].
  destruct (bytes_of_text (normalize text)) as [data'|] eqn:Hb; [|done].
  destruct (fits env data') eqn:Hfit; [|done].
  destruct (stdout_sink env) eqn:Hout; try done.
  intros [= <-]. exists wr, data, text, r, wr', data'. by repeat split.
Qed.

Lemma run_ok_intro w wr data text r wr' data' :
  fs w !! TEMPLATE = Some (File true wr data) →
  text_of_bytes data = Some text →
  open_w (fs w) TARGET_PATH = inr (r, wr') →
  bytes_of_text (normalize text) = Some data' →
  fits env data' = true →
  stdout_sink env = Accepts →
  process w =
    (0, None,
     World (store env TARGET_PATH r wr' data' (fs w))
       (stdout w ++ [confirmation (line_count (normalize text))])
       (trace w ++ [Stat TEMPLATE; OpenRead TEMPLATE true;
                    OpenWrite TARGET_PATH true])).
Proof.
  intros Ht Hd Ho Hb Hfit Hout.
  unfold run. by rewrite main_cases, Ht, Hd, Ho, Hb, Hfit, Hout.
Qed.

Lemma new_events_app w w' evs :
  trace w' = trace w ++ evs → new_events w w' = evs.
Proof. unfold new_events. intros ->. apply drop_app_length. Qed.

Lemma open_w_file m p r wr old :
  m !! p = Some (File r wr old) →
  open_w m p = if wr then inr (r, true) else inl (PermissionError p).
Proof. unfold open_w. intros ->. by destruct wr. Qed.

(** What a successful run leaves behind, in terms of the text that
    [read_text] returned. *)
Lemma run_ok_text w w' data text :
  file_data (fs w) TEMPLATE = Some data →
  text_of_bytes data = Some text →
  process w = (0, None, w') →
  file_data (fs w') TARGET_PATH = bytes_of_text (normalize text)
  ∧ is_Some (bytes_of_text (normalize text))
  ∧ stdout w' = stdout w ++ [confirmation (line_count (normalize text))].
Proof.
  intros Hdata Htext Hrun.
  apply run_ok_inv in Hrun
    as (wr & data0 & text0 & r & wr' & data' & Ht & Hd & _ & Hb & _ & _ & ->).
  unfold file_data in Hdata. rewrite Ht in Hdata.
  injection Hdata as ->. rewrite Htext in Hd. injection Hd as <-.
  cbn [fs stdout]. by rewrite file_data_store, Hb.
Qed.

Lemma run_ok_template w w' :
  process w = (0, None, w') →
  ∃ data text,
    file_data (fs w) TEMPLATE = Some data ∧ text_of_bytes data = Some text.
Proof.
  intros Hrun. apply run_ok_inv in Hrun
    as (wr & data & text & r & wr' & data' & Ht & Hd & _).
  exists data, text. unfold file_data. by rewrite Ht.
Qed.

Lemma open_w_inr m p r wr : open_w m p = inr (r, wr) → wr = true.
Proof.
  unfold open_w. destruct (m !! p) as [[? [] ?|?]|]; try done.
  - by intros [= _ <-].
  - destruct (m !! parent p) as [[? ? ?|[]]|]; try done.
    + by intros [= _ <-].
    + by destruct (file_in_the_way m p).
Qed.

Lemma utf8_encode_snoc_LF p data :
  utf8_encode (p ++ [LF]) = Some data →
  ∃ data0, utf8_encode p = Some data0 ∧ data = data0 ++ [LF].
Proof.
  unfold utf8_encode. intros (k & Hk & ->)%fmap_Some.
  apply mapM_Some, Forall2_app_inv_l in Hk as (k1 & k2 & Hk1 & Hk2 & ->).
  apply Forall2_cons_inv_l in Hk2 as (y & k3 & Hy & Hk3 & ->).
  apply Forall2_nil_inv_l in Hk3 as ->. injection Hy as <-.
  exists (mjoin k1). apply mapM_Some in Hk1. rewrite Hk1. split; [done|].
  rewrite join_app. done.
Qed.

Ltac not_in_events H :=
  repeat (apply elem_of_cons in H as [H|H]; [discriminate H|]);
  by apply elem_of_nil in H.

(** * The claims *)

(** C1 (content fidelity).  Let [text] be what [read_text] returns for the
    template (its bytes decoded as UTF-8, line endings read as newlines).
    A run that succeeds leaves in the destination the encoding of [p]
    followed by one newline, where [p] is [text] with all trailing white
    space stripped; for the template ["abc\n\n\n"] these are the bytes
    of ["abc\n"]. *)
Theorem written_content_is_stripped_template :
  (∀ w w' data text,
     file_data (fs w) TEMPLATE = Some data →
     text_of_bytes data = Some text →
     process w = (0, None, w') →
     ∃ p data',
       stripped text p
       ∧ utf8_encode (p ++ [LF]) = Some data'
       ∧ file_data (fs w') TARGET_PATH = Some data')
  ∧ (∀ w w',
       file_data (fs w) TEMPLATE = Some (lit "abc" ++ [LF; LF; LF]) →
       process w = (0, None, w') →
       file_data (fs w') TARGET_PATH = Some (lit "abc" ++ [LF])).
Proof.
  split.
  - intros w w' data text Hdata Htext Hok.
    destruct (run_ok_text _ _ _ _ Hdata Htext Hok) as (Hw & [data' Hb] & _).
    exists (rstrip text), data'. split; [apply rstrip_stripped|].
    rewrite Hw, Hb. by rewrite bytes_of_text_encode in Hb.
  - intros w w' Hdata Hok.
    by destruct (run_ok_text _ _ _ _ Hdata eq_refl Hok) as (-> & _).
Qed.

(** C2 (line count accuracy), amended.  When the newline character is the
    only line boundary in the normalized content, the count in the
    confirmation message is the number of its newline-delimited segments.
    (The count is that of [splitlines], which also ends a line at a
    vertical tab, a form feed, the separators U+001C to U+001E, U+0085,
    U+2028 and U+2029.) *)
Theorem reported_count_is_newline_segments w w' data text :
  file_data (fs w) TEMPLATE = Some data →
  text_of_bytes data = Some text →
  only_newline_breaks (normalize text) →
  process w = (0, None, w') →
  stdout w' =
  stdout w ++ [confirmation (length (newline_segments (normalize text)))].
Proof.
  intros Hdata Htext Hbr Hok.
  destruct (run_ok_text _ _ _ _ Hdata Htext Hok) as (_ & _ & ->).
  unfold line_count, splitlines, newline_segments.
  by rewrite splitlines_from_segments.
Qed.

(** C3 (existence precondition).  With no entry at the template path the
    run dies of [FileNotFoundError] with the template path in its message;
    the file system is as it was, nothing is printed and the only
    operation performed is the existence test: no write is attempted. *)
Theorem missing_template_raises w :
  fs w !! TEMPLATE = None →
  ∃ w',
    process w =
      (1, Some (FileNotFoundError
                  ("Template not found: " +:+ path_str TEMPLATE)), w')
    ∧ fs w' = fs w
    ∧ fs w' !! TARGET_PATH = fs w !! TARGET_PATH
    ∧ stdout w' = stdout w
    ∧ new_events w w' = [Stat TEMPLATE]
    ∧ ∀ ok, OpenWrite TARGET_PATH ok ∉ new_events w w'.
Proof.
  intros Hnone. unfold run. rewrite main_cases, Hnone.
  eexists. split; [reflexivity|]. cbn [fs stdout].
  rewrite (new_events_app _ _ [Stat TEMPLATE]) by done.
  repeat split. intros ok H. not_in_events H.
Qed.

(** C4 (overwrite semantics).  When the destination already is a file,
    whatever it holds, a successful run leaves in it exactly the encoding
    of the normalized template text; and the run ends in the very same
    world had the destination held any other content. *)
Theorem destination_overwritten w w' r wr old :
  fs w !! TARGET_PATH = Some (File r wr old) →
  process w = (0, None, w') →
  ∃ data text data',
    file_data (fs w) TEMPLATE = Some data
    ∧ text_of_bytes data = Some text
    ∧ utf8_encode (normalize text) = Some data'
    ∧ fs w' !! TARGET_PATH = Some (File r wr data')
    ∧ ∀ old',
        process (World (<[TARGET_PATH := File r wr old']> (fs w))
                   (stdout w) (trace w))
        = (0, None, w').
Proof.
  intros Hold Hok.
  apply run_ok_inv in Hok
    as (wr0 & data & text & r' & wr' & data' & Ht & Hd & Ho & Hb & Hfit
        & Hout & ->).
  rewrite (open_w_file _ _ _ _ _ Hold) in Ho.
  destruct wr; [|done]. injection Ho as <- <-.
  exists data, text, data'. cbn [fs].
  split; [unfold file_data; by rewrite Ht|]. split; [done|].
  split; [by rewrite <-bytes_of_text_encode|].
  split; [apply store_lookup_self|]. intros old'.
  rewrite (run_ok_intro _ wr0 data text r true data'); cbn [fs stdout trace];
    try done.
  - by rewrite store_over.
  - rewrite lookup_insert_ne; [done|]. intros E. by apply TEMPLATE_neq_TARGET.
  - by erewrite open_w_file by apply lookup_insert_eq.
Qed.

(** C5 (scenario).  For the template
    ["export const X = 1;\n   \n"] a successful run writes
    ["export const X = 1;\n"] and reports one line. *)
Theorem scenario_export_const w w' :
  file_data (fs w) TEMPLATE
    = Some (lit "export const X = 1;" ++ [LF; 32; 32; 32; LF]) →
  process w = (0, None, w') →
  file_data (fs w') TARGET_PATH = Some (lit "export const X = 1;" ++ [LF])
  ∧ stdout w' =
    stdout w
    ++ ["Wrote app/(dashboard)/contacts/contacts-import-modal.tsx (1 lines)"].
Proof.
  intros Hdata Hok.
  by destruct (run_ok_text _ _ _ _ Hdata eq_refl Hok) as (-> & _ & ->).
Qed.

(** C6 (idempotence).  After a successful run, a second run on the world
    the first one left succeeds as well and leaves the file system, and so
    the destination's bytes, exactly as the first one did; and normalizing
    text that is already normalized changes nothing. *)
Theorem second_run_identical :
  (∀ w w1,
     process w = (0, None, w1) →
     ∃ w2,
       process w1 = (0, None, w2)
       ∧ fs w2 = fs w1
       ∧ is_Some (file_data (fs w1) TARGET_PATH)
       ∧ file_data (fs w2) TARGET_PATH = file_data (fs w1) TARGET_PATH)
  ∧ (∀ text, normalize (normalize text) = normalize text).
Proof.
  split.
  - intros w w1 Hok.
    apply run_ok_inv in Hok
      as (wr & data & text & r & wr' & data' & Ht & Hd & Ho & Hb & Hfit
          & Hout & ->).
    apply open_w_inr in Ho as ->.
    (* what the second run finds at the template path *)
    assert (∃ wr1 data1,
              store env TARGET_PATH r true data' (fs w) !! TEMPLATE
              = Some (File true wr1 data1)
              ∧ ∃ text1, text_of_bytes data1 = Some text1
                         ∧ normalize text1 = normalize text)
      as (wr1 & data1 & Ht1 & text1 & Hd1 & Hn1).
    { rewrite store_lookup, decide_False
        by (intros E; by apply TEMPLATE_neq_TARGET).
      destruct (decide (TEMPLATE ∈ other_names env TARGET_PATH)).
      - unfold renamed. rewrite Ht. exists wr, data'. split; [done|].
        exists (normalize text).
        split; [by eapply bytes_of_text_read_back|apply normalize_idemp].
      - exists wr, data. split; [done|]. by exists text. }
    eexists. split.
    + apply (run_ok_intro _ wr1 data1 text1 r true data');
        cbn [fs stdout trace]; try done.
      * by erewrite open_w_file by apply store_lookup_self.
      * by rewrite Hn1.
    + cbn [fs]. rewrite store_again, file_data_store. by repeat split.
  - apply normalize_idemp.
Qed.


(** C8 (blank templates).  For a template that is empty or holds white
    space only, a successful run writes the single byte of a newline and
    reports one line.  For every template, what a successful run writes
    is not empty (it ends in a newline) and the count it reports is at
    least one. *)
Theorem blank_template_single_newline :
  (∀ w w' data s,
     file_data (fs w) TEMPLATE = Some data →
     utf8_decode data = Some s →
     Forall (λ ch, Py_UNICODE_ISSPACE ch = true) s →
     process w = (0, None, w') →
     file_data (fs w') TARGET_PATH = Some [LF]
     ∧ stdout w' = stdout w ++ [confirmation 1])
  ∧ (∀ w w',
       process w = (0, None, w') →
       ∃ data' k,
         file_data (fs w') TARGET_PATH = Some data'
         ∧ data' ≠ []
         ∧ last data' = Some LF
         ∧ stdout w' = stdout w ++ [confirmation k]
         ∧ (1 ≤ k)%nat).
Proof.
  split.
  - intros w w' data s Hdata Hdec Hs Hok.
    assert (text_of_bytes data = Some (universal_newlines s)) as Htext
      by (unfold text_of_bytes; by rewrite Hdec).
    destruct (run_ok_text _ _ _ _ Hdata Htext Hok) as (-> & _ & ->).
    unfold normalize. rewrite rstrip_all_space; [done|].
    by apply universal_newlines_Forall.
  - intros w w' Hok.
    destruct (run_ok_template _ _ Hok) as (data & text & Hdata & Htext).
    destruct (run_ok_text _ _ _ _ Hdata Htext Hok) as (Hw & [data' Hb] & Hout).
    exists data', (line_count (normalize text)).
    rewrite Hw, Hb. rewrite bytes_of_text_encode in Hb.
    apply utf8_encode_snoc_LF in Hb as (data0 & _ & ->).
    split; [done|]. split; [by destruct data0|].
    split; [apply last_snoc|]. split; [done|]. apply line_count_normalize.
Qed.

(** C9 (frame), amended.  Whether it succeeds or fails, a run leaves
    every entry of the file system as it was, except the one at the
    destination path and those at the other names of that same file (a
    link between the template and the destination makes the template one
    of them); and it performs no operation other than the existence test
    and the read of the template path and the write of the destination
    path. *)
Theorem only_destination_touched w :
  (∀ p,
     p ≠ TARGET_PATH → p ∉ other_names env TARGET_PATH →
     fs (process w).2 !! p = fs w !! p)
  ∧ Forall (λ ev, ev = Stat TEMPLATE
                  ∨ (∃ ok, ev = OpenRead TEMPLATE ok)
                  ∨ (∃ ok, ev = OpenWrite TARGET_PATH ok))
      (new_events w (process w).2).
Proof.
  unfold run. rewrite main_cases.
  destruct (fs w !! TEMPLATE) as [[[] wr data|wr]|];
    [destruct (text_of_bytes data) as [text|];
       [destruct (open_w (fs w) TARGET_PATH) as [e|[r wr']];
          [|destruct (bytes_of_text (normalize text)) as [data'|];
              [destruct (fits env data'); [destruct (stdout_sink env)|]|]]|]
    |..];
    cbn [snd fs]; erewrite new_events_app by reflexivity;
    (split;
     [intros p Hp Hq; rewrite ?store_lookup, ?decide_False by done; done|]);
    repeat (apply Forall_cons; split;
            [first [by left | right; left; by eexists
                   | right; right; by eexists]|]);
    apply Forall_nil_2.
Qed.


End Run.

(** * Concrete runs *)

Ltac by_running := vm_compute; reflexivity.

Lemma written_content_witness :
  file_data (fs (sample_world (Some abc_template) None))
    (TEMPLATE_PATH sample_script) = Some (lit "abc" ++ [LF; LF; LF])
  ∧ run quiet_host sample_script (sample_world (Some abc_template) None)
    = (0, None, after (sample_world (Some abc_template) None))
  ∧ file_data (fs (after (sample_world (Some abc_template) None))) TARGET_PATH
    = Some (lit "abc" ++ [LF]).
Proof.
  assert (file_data (fs (sample_world (Some abc_template) None))
            (TEMPLATE_PATH sample_script) = Some (lit "abc" ++ [LF; LF; LF]))
    as H1 by by_running.
  assert (run quiet_host sample_script (sample_world (Some abc_template) None)
          = (0, None, after (sample_world (Some abc_template) None)))
    as H2 by by_running.
  split; [exact H1|]. split; [exact H2|].
  exact (proj2 (written_content_is_stripped_template quiet_host sample_script) _ _ H1 H2).
Defined.

Lemma two_lines_only_newline_breaks :
  only_newline_breaks (normalize two_line_template).
Proof.
  change (normalize two_line_template)
    with (lit "first" ++ [LF] ++ lit "second" ++ [LF]).
  unfold only_newline_breaks.
  repeat (apply Forall_cons_2; [by vm_compute|]). apply Forall_nil_2.
Defined.

Lemma reported_count_witness :
  file_data (fs (sample_world (Some two_line_template) None))
    (TEMPLATE_PATH sample_script) = Some two_line_template
  ∧ text_of_bytes two_line_template = Some two_line_template
  ∧ only_newline_breaks (normalize two_line_template)
  ∧ run quiet_host sample_script (sample_world (Some two_line_template) None)
    = (0, None, after (sample_world (Some two_line_template) None))
  ∧ stdout (after (sample_world (Some two_line_template) None))
    = stdout (sample_world (Some two_line_template) None)
      ++ [confirmation (length (newline_segments (normalize two_line_template)))].
Proof.
  assert (file_data (fs (sample_world (Some two_line_template) None))
            (TEMPLATE_PATH sample_script) = Some two_line_template)
    as H1 by by_running.
  assert (text_of_bytes two_line_template = Some two_line_template)
    as H2 by by_running.
  assert (run quiet_host sample_script (sample_world (Some two_line_template) None)
          = (0, None, after (sample_world (Some two_line_template) None)))
    as H3 by by_running.
  repeat (split; [assumption || exact two_lines_only_newline_breaks|]).
  exact (reported_count_is_newline_segments quiet_host sample_script _ _ _ _
           H1 H2 two_lines_only_newline_breaks H3).
Defined.

(** C2 as it is stated fails on a template whose lines end in form feeds:
    the content ["a\fb\fc\n"] is one newline-delimited segment (two
    pieces when split at the newline), and the run reports three lines. *)
Lemma form_feed_counterexample :
  file_data (fs (sample_world (Some form_feed_template) None))
    (TEMPLATE_PATH sample_script) = Some form_feed_template
  ∧ text_of_bytes form_feed_template = Some form_feed_template
  ∧ normalize form_feed_template = form_feed_template
  ∧ run quiet_host sample_script (sample_world (Some form_feed_template) None)
    = (0, None, after (sample_world (Some form_feed_template) None))
  ∧ stdout (after (sample_world (Some form_feed_template) None))
    = ["Wrote app/(dashboard)/contacts/contacts-import-modal.tsx (3 lines)"]
  ∧ length (newline_segments (normalize form_feed_template)) = 1%nat
  ∧ length (split_newline (normalize form_feed_template)) = 2%nat
  ∧ stdout (after (sample_world (Some form_feed_template) None))
    ≠ stdout (sample_world (Some form_feed_template) None)
      ++ [confirmation (length (newline_segments (normalize form_feed_template)))]
  ∧ stdout (after (sample_world (Some form_feed_template) None))
    ≠ stdout (sample_world (Some form_feed_template) None)
      ++ [confirmation (length (split_newline (normalize form_feed_template)))].
Proof.
  repeat (split; [by_running|]).
  split; intros H; vm_compute in H; discriminate H.
Qed.

Lemma missing_template_witness :
  fs (sample_world None (Some (lit "kept"))) !! TEMPLATE_PATH sample_script
    = None
  ∧ ∃ w',
      run quiet_host sample_script (sample_world None (Some (lit "kept")))
      = (1, Some (FileNotFoundError
                    ("Template not found: "
                     +:+ path_str (TEMPLATE_PATH sample_script))), w')
      ∧ file_data (fs w') TARGET_PATH = Some (lit "kept").
Proof.
  assert (fs (sample_world None (Some (lit "kept")))
            !! TEMPLATE_PATH sample_script = None) as H1 by by_running.
  split; [exact H1|].
  destruct (missing_template_raises quiet_host sample_script _ H1)
    as (w' & Hrun & Hfs & _).
  exists w'. split; [exact Hrun|]. rewrite Hfs. by_running.
Defined.

Lemma destination_overwritten_witness :
  fs (sample_world (Some abc_template) (Some (lit "unrelated")))
    !! TARGET_PATH = Some (File true true (lit "unrelated"))
  ∧ run quiet_host sample_script (sample_world (Some abc_template) (Some (lit "unrelated")))
    = (0, None, after (sample_world (Some abc_template) (Some (lit "unrelated"))))
  ∧ ∃ data',
      utf8_encode (normalize abc_template) = Some data'
      ∧ fs (after (sample_world (Some abc_template) (Some (lit "unrelated"))))
          !! TARGET_PATH = Some (File true true data').
Proof.
  assert (fs (sample_world (Some abc_template) (Some (lit "unrelated")))
            !! TARGET_PATH = Some (File true true (lit "unrelated")))
    as H1 by by_running.
  assert (run quiet_host sample_script
            (sample_world (Some abc_template) (Some (lit "unrelated")))
          = (0, None,
             after (sample_world (Some abc_template) (Some (lit "unrelated")))))
    as H2 by by_running.
  split; [exact H1|]. split; [exact H2|].
  destruct (destination_overwritten quiet_host sample_script _ _ _ _ _ H1 H2)
    as (data & text & data' & Hdata & Htext & Henc & Hfs & _).
  exists data'. split; [|exact Hfs].
  assert (Some data = Some abc_template) as [= ->]
    by (rewrite <-Hdata; by_running).
  assert (Some text = Some abc_template) as [= ->]
    by (rewrite <-Htext; by_running).
  exact Henc.
Defined.

Lemma scenario_witness :
  file_data (fs (sample_world (Some export_template) None))
    (TEMPLATE_PATH sample_script)
    = Some (lit "export const X = 1;" ++ [LF; 32; 32; 32; LF])
  ∧ run quiet_host sample_script (sample_world (Some export_template) None)
    = (0, None, after (sample_world (Some export_template) None))
  ∧ file_data (fs (after (sample_world (Some export_template) None)))
      TARGET_PATH = Some (lit "export const X = 1;" ++ [LF])
  ∧ stdout (after (sample_world (Some export_template) None))
    = stdout (sample_world (Some export_template) None)
      ++ ["Wrote app/(dashboard)/contacts/contacts-import-modal.tsx (1 lines)"].
Proof.
  assert (file_data (fs (sample_world (Some export_template) None))
            (TEMPLATE_PATH sample_script)
          = Some (lit "export const X = 1;" ++ [LF; 32; 32; 32; LF]))
    as H1 by by_running.
  assert (run quiet_host sample_script (sample_world (Some export_template) None)
          = (0, None, after (sample_world (Some export_template) None)))
    as H2 by by_running.
  split; [exact H1|]. split; [exact H2|].
  exact (scenario_export_const quiet_host sample_script _ _ H1 H2).
Defined.

Lemma second_run_witness :
  run quiet_host sample_script (sample_world (Some abc_template) None)
    = (0, None, after (sample_world (Some abc_template) None))
  ∧ ∃ w2,
      run quiet_host sample_script (after (sample_world (Some abc_template) None))
      = (0, None, w2)
      ∧ fs w2 = fs (after (sample_world (Some abc_template) None))
      ∧ is_Some (file_data (fs (after (sample_world (Some abc_template) None)))
                   TARGET_PATH)
      ∧ file_data (fs w2) TARGET_PATH
        = file_data (fs (after (sample_world (Some abc_template) None)))
            TARGET_PATH.
Proof.
  assert (run quiet_host sample_script (sample_world (Some abc_template) None)
          = (0, None, after (sample_world (Some abc_template) None)))
    as H1 by by_running.
  split; [exact H1|].
  exact (proj1 (second_run_identical quiet_host sample_script) _ _ H1).
Defined.

Lemma blank_template_witness :
  file_data (fs (sample_world (Some blank_template) None))
    (TEMPLATE_PATH sample_script) = Some blank_template
  ∧ utf8_decode blank_template = Some blank_template
  ∧ Forall (λ ch, Py_UNICODE_ISSPACE ch = true) blank_template
  ∧ run quiet_host sample_script (sample_world (Some blank_template) None)
    = (0, None, after (sample_world (Some blank_template) None))
  ∧ file_data (fs (after (sample_world (Some blank_template) None)))
      TARGET_PATH = Some [LF]
  ∧ stdout (after (sample_world (Some blank_template) None))
    = stdout (sample_world (Some blank_template) None) ++ [confirmation 1].
Proof.
  assert (file_data (fs (sample_world (Some blank_template) None))
            (TEMPLATE_PATH sample_script) = Some blank_template)
    as H1 by by_running.
  assert (utf8_decode blank_template = Some blank_template)
    as H2 by by_running.
  assert (Forall (λ ch, Py_UNICODE_ISSPACE ch = true) blank_template) as H3
    by (repeat (apply Forall_cons_2; [by_running|]); apply Forall_nil_2).
  assert (run quiet_host sample_script (sample_world (Some blank_template) None)
          = (0, None, after (sample_world (Some blank_template) None)))
    as H4 by by_running.
  repeat (split; [assumption|]).
  exact (proj1 (blank_template_single_newline quiet_host sample_script) _ _ _ _
           H1 H2 H3 H4).
Defined.



(** C9 as it is stated fails when the destination is a link to the
    template, one file under two names: the run writes through the
    destination path only, and the entry at the template path, another
    path, is modified. *)
Lemma linked_destination_counterexample :
  TEMPLATE_PATH sample_script ≠ TARGET_PATH
  ∧ run linked_host sample_script
      (sample_world (Some abc_template) (Some abc_template))
    = (0, None,
       (run linked_host sample_script
          (sample_world (Some abc_template) (Some abc_template))).2)
  ∧ file_data (fs (sample_world (Some abc_template) (Some abc_template)))
      (TEMPLATE_PATH sample_script) = Some (lit "abc" ++ [LF; LF; LF])
  ∧ file_data
      (fs (run linked_host sample_script
             (sample_world (Some abc_template) (Some abc_template))).2)
      (TEMPLATE_PATH sample_script) = Some (lit "abc" ++ [LF])
  ∧ fs (run linked_host sample_script
          (sample_world (Some abc_template) (Some abc_template))).2
      !! TEMPLATE_PATH sample_script
    ≠ fs (sample_world (Some abc_template) (Some abc_template))
        !! TEMPLATE_PATH sample_script.
Proof.
  split; [apply TEMPLATE_neq_TARGET|]. repeat (split; [by_running|]).
  intros H. vm_compute in H. discriminate H.
Qed.

(** * More about runs *)

Section MoreRuns.

Variable env : host.
Variable script_file : path.

Local Abbreviation TEMPLATE := (TEMPLATE_PATH script_file).
Local Abbreviation process := (run env script_file).




(** X7 (success).  When the template is a readable file of valid UTF-8,
    the destination is a writable file, or is absent from an existing
    writable directory, the host takes the bytes to write and standard
    output accepts the message, the run ends with status 0 and the
    destination is a file. *)
Theorem run_succeeds w wr data text :
  fs w !! TEMPLATE = Some (File true wr data) →
  text_of_bytes data = Some text →
  (∃ r old, fs w !! TARGET_PATH = Some (File r true old))
  ∨ (fs w !! TARGET_PATH = None
     ∧ fs w !! parent TARGET_PATH = Some (Dir true)) →
  (∀ data', bytes_of_text (normalize text) = Some data' →
            fits env data' = true) →
  stdout_sink env = Accepts →
  ∃ w', process w = (0, None, w')
        ∧ is_Some (file_data (fs w') TARGET_PATH).
Proof.
  intros Ht Htext Hdest Hfit Hout.
  assert (∃ r, open_w (fs w) TARGET_PATH = inr (r, true)) as [r Ho].
  { unfold open_w. destruct Hdest as [(r & old & ->)|[-> ->]]; by eexists. }
  destruct (normalize_encodable _ _ Htext) as [data' Hb].
  rewrite (run_ok_intro _ _ _ wr data text r true data') by auto.
  eexists. split; [done|]. cbn [fs]. rewrite file_data_store. by eexists.
Qed.


(** X9 (template that is not UTF-8).  The run dies of
    [UnicodeDecodeError] after the read, before the destination is
    opened; nothing is changed or printed. *)
Theorem undecodable_template_raises w wr data :
  fs w !! TEMPLATE = Some (File true wr data) →
  utf8_decode data = None →
  ∃ w',
    process w = (1, Some UnicodeDecodeError, w')
    ∧ fs w' = fs w
    ∧ stdout w' = stdout w
    ∧ new_events w w' = [Stat TEMPLATE; OpenRead TEMPLATE true].
Proof.
  intros Ht Hdec. unfold run.
  rewrite main_cases, Ht. unfold text_of_bytes. rewrite Hdec. cbn.
  eexists. split; [done|]. cbn [fs stdout].
  by erewrite new_events_app by reflexivity.
Qed.

(** X10 (template that is no readable file).  A directory at the
    template path passes the existence test, and so does a file without
    read permission; the run then dies of the error of the open call,
    [IsADirectoryError] or [PermissionError], not of the script's own
    [FileNotFoundError], and changes nothing. *)
Theorem unreadable_template_raises w n :
  fs w !! TEMPLATE = Some n →
  match n with Dir _ => True | File r _ _ => r = false end →
  ∃ w',
    process w
    = (1, Some match n with
               | Dir _ => IsADirectoryError TEMPLATE
               | File _ _ _ => PermissionError TEMPLATE
               end, w')
    ∧ fs w' = fs w
    ∧ stdout w' = stdout w
    ∧ new_events w w' = [Stat TEMPLATE; OpenRead TEMPLATE false].
Proof.
  intros Ht Hn. unfold run. rewrite main_cases, Ht.
  destruct n as [[] wr data|d]; [done|..];
    (eexists; split; [done|]; cbn [fs stdout];
     by erewrite new_events_app by reflexivity).
Qed.

(** X11 (reading back).  After a successful run the destination, read
    the way the script reads its template, is the normalized text of the
    template. *)
Theorem destination_reads_back w w' :
  process w = (0, None, w') →
  ∃ data text data',
    file_data (fs w) TEMPLATE = Some data
    ∧ text_of_bytes data = Some text
    ∧ file_data (fs w') TARGET_PATH = Some data'
    ∧ text_of_bytes data' = Some (normalize text).
Proof.
  intros Hok.
  destruct (run_ok_template _ _ _ _ Hok) as (data & text & Hdata & Htext).
  destruct (run_ok_text _ _ _ _ _ _ Hdata Htext Hok) as (Hw & [data' Hb] & _).
  exists data, text, data'. rewrite Hw.
  repeat split; try done. by eapply bytes_of_text_read_back.
Qed.

(** X12 (verbatim copy).  A template without carriage returns whose
    text is already normalized is copied byte for byte. *)
Theorem normalized_template_copied w w' data s :
  file_data (fs w) TEMPLATE = Some data →
  utf8_decode data = Some s →
  CR ∉ s →
  normalize s = s →
  process w = (0, None, w') →
  file_data (fs w') TARGET_PATH = Some data.
Proof.
  intros Hdata Hdec Hcr Hfix Hok.
  assert (text_of_bytes data = Some s) as Htext.
  { unfold text_of_bytes. rewrite Hdec. cbn.
    by rewrite universal_newlines_id. }
  destruct (run_ok_text _ _ _ _ _ _ Hdata Htext Hok) as (-> & _ & _).
  rewrite Hfix, bytes_of_text_encode. by apply utf8_encode_decode.
Qed.

(** X13 (the output is a fixed point).  Whatever a successful run
    wrote, a successful run with those bytes as its template writes the
    same bytes again. *)
Theorem output_is_fixed_point w w' dest v v' :
  process w = (0, None, w') →
  file_data (fs w') TARGET_PATH = Some dest →
  file_data (fs v) TEMPLATE = Some dest →
  process v = (0, None, v') →
  file_data (fs v') TARGET_PATH = Some dest.
Proof.
  intros Hok Hdest Hv Hokv.
  destruct (run_ok_template _ _ _ _ Hok) as (data & text & Hdata & Htext).
  destruct (run_ok_text _ _ _ _ _ _ Hdata Htext Hok) as (Hw & _ & _).
  rewrite Hdest in Hw. symmetry in Hw.
  pose proof (bytes_of_text_read_back _ _ _ Htext Hw) as Hback.
  destruct (run_ok_text _ _ _ _ _ _ Hv Hback Hokv) as (-> & _ & _).
  by rewrite normalize_idemp.
Qed.

(** X14 (the template is read-only).  Wherever the script lives, the
    template and the destination are different paths; and unless the
    template is another name of the destination file, no run, successful
    or not, modifies the entry at the template path. *)
Theorem template_never_modified w :
  TEMPLATE ∉ other_names env TARGET_PATH →
  TEMPLATE ≠ TARGET_PATH
  ∧ fs (process w).2 !! TEMPLATE = fs w !! TEMPLATE.
Proof.
  intros Hname. split; [apply TEMPLATE_neq_TARGET|].
  assert (∀ r wr data,
            store env TARGET_PATH r wr data (fs w) !! TEMPLATE
            = fs w !! TEMPLATE) as Hstore.
  { intros r wr data. rewrite store_lookup, !decide_False; try done.
    intros E. by apply (TEMPLATE_neq_TARGET script_file). }
  unfold run. rewrite main_cases.
  destruct (fs w !! TEMPLATE) as [[[] wr data|wr]|] eqn:Ht; try done.
  destruct (text_of_bytes data) as [text|]; [|done].
  destruct (open_w (fs w) TARGET_PATH) as [err|[r wr']]; [done|].
  destruct (bytes_of_text (normalize text)) as [data'|]; [|apply Hstore].
  destruct (fits env data'); [|apply Hstore].
  destruct (stdout_sink env); apply Hstore.
Qed.

(** X15 (line endings).  The bytes a successful run writes hold no
    carriage return, whatever line endings the template has. *)
Theorem no_carriage_return_written w w' data' :
  process w = (0, None, w') →
  file_data (fs w') TARGET_PATH = Some data' →
  CR ∉ data'.
Proof.
  intros Hok Hdest Hin.
  destruct (run_ok_template _ _ _ _ Hok) as (data & text & Hdata & Htext).
  destruct (run_ok_text _ _ _ _ _ _ Hdata Htext Hok) as (Hw & _ & _).
  rewrite Hdest, bytes_of_text_encode in Hw. symmetry in Hw.
  apply (utf8_encode_ascii _ _ _ Hw) in Hin; [|done].
  revert Hin. by apply normalize_no_CR, (text_of_bytes_no_CR data).
Qed.

(** X5 (the count reported).  The count in the confirmation message is
    one more than the number of line boundaries in the stripped text of
    the template. *)
Theorem reported_count_is_boundaries_plus_one w w' data text :
  file_data (fs w) TEMPLATE = Some data →
  text_of_bytes data = Some text →
  process w = (0, None, w') →
  stdout w' =
  stdout w
  ++ [confirmation
        (S (length (filter (λ ch, Py_UNICODE_ISLINEBREAK ch = true)
                      (rstrip text))))].
Proof.
  intros Hdata Htext Hok.
  destruct (run_ok_text _ _ _ _ _ _ Hdata Htext Hok) as (_ & _ & ->).
  unfold line_count, splitlines, normalize.
  rewrite splitlines_from_count; [done|].
  by apply rstrip_no_CR, (text_of_bytes_no_CR data).
Qed.

End MoreRuns.

(** * More concrete runs *)

Ltac no_such_element H :=
  repeat (apply elem_of_cons in H as [H|H]; [discriminate H|]);
  by apply elem_of_nil in H.

Lemma read_text_newlines_witness :
  text_of_bytes crlf_template
    = Some (lit "a" ++ [LF] ++ lit "b" ++ [LF] ++ lit "c" ++ [LF])
  ∧ CR ∉ (lit "a" ++ [LF] ++ lit "b" ++ [LF] ++ lit "c" ++ [LF]).
Proof.
  assert (text_of_bytes crlf_template
          = Some (lit "a" ++ [LF] ++ lit "b" ++ [LF] ++ lit "c" ++ [LF]))
    as H1 by by_running.
  split; [exact H1|]. exact (proj1 read_text_newlines _ _ H1).
Defined.

Lemma reported_count_boundaries_witness :
  file_data (fs (sample_world (Some form_feed_template) None))
    (TEMPLATE_PATH sample_script) = Some form_feed_template
  ∧ text_of_bytes form_feed_template = Some form_feed_template
  ∧ run quiet_host sample_script (sample_world (Some form_feed_template) None)
    = (0, None, after (sample_world (Some form_feed_template) None))
  ∧ stdout (after (sample_world (Some form_feed_template) None))
    = stdout (sample_world (Some form_feed_template) None)
      ++ [confirmation
            (S (length (filter (λ ch, Py_UNICODE_ISLINEBREAK ch = true)
                          (rstrip form_feed_template))))].
Proof.
  assert (file_data (fs (sample_world (Some form_feed_template) None))
            (TEMPLATE_PATH sample_script) = Some form_feed_template)
    as H1 by by_running.
  assert (text_of_bytes form_feed_template = Some form_feed_template)
    as H2 by by_running.
  assert (run quiet_host sample_script (sample_world (Some form_feed_template) None)
          = (0, None, after (sample_world (Some form_feed_template) None)))
    as H3 by by_running.
  repeat (split; [assumption|]).
  exact (reported_count_is_boundaries_plus_one quiet_host sample_script _ _ _ _
           H1 H2 H3).
Defined.

Lemma undecodable_template_witness :
  fs (sample_world (Some latin1_template) None) !! TEMPLATE_PATH sample_script
    = Some (File true true latin1_template)
  ∧ utf8_decode latin1_template = None
  ∧ ∃ w',
      run quiet_host sample_script (sample_world (Some latin1_template) None)
      = (1, Some UnicodeDecodeError, w')
      ∧ fs w' = fs (sample_world (Some latin1_template) None)
      ∧ stdout w' = stdout (sample_world (Some latin1_template) None)
      ∧ new_events (sample_world (Some latin1_template) None) w'
        = [Stat (TEMPLATE_PATH sample_script);
           OpenRead (TEMPLATE_PATH sample_script) true].
Proof.
  assert (fs (sample_world (Some latin1_template) None)
            !! TEMPLATE_PATH sample_script
          = Some (File true true latin1_template)) as H1 by by_running.
  assert (utf8_decode latin1_template = None) as H2 by by_running.
  repeat (split; [assumption|]).
  exact (undecodable_template_raises quiet_host sample_script _ _ _ H1 H2).
Defined.

Lemma unreadable_template_witness :
  fs (World {[ TEMPLATE_PATH sample_script := Dir true ]} [] [])
    !! TEMPLATE_PATH sample_script = Some (Dir true)
  ∧ ∃ w',
      run quiet_host sample_script
        (World {[ TEMPLATE_PATH sample_script := Dir true ]} [] [])
      = (1, Some (IsADirectoryError (TEMPLATE_PATH sample_script)), w')
      ∧ fs w' = {[ TEMPLATE_PATH sample_script := Dir true ]}
      ∧ stdout w' = []
      ∧ new_events
          (World {[ TEMPLATE_PATH sample_script := Dir true ]} [] []) w'
        = [Stat (TEMPLATE_PATH sample_script);
           OpenRead (TEMPLATE_PATH sample_script) false].
Proof.
  assert (fs (World {[ TEMPLATE_PATH sample_script := Dir true ]} [] [])
            !! TEMPLATE_PATH sample_script = Some (Dir true)) as H1
    by by_running.
  split; [exact H1|].
  exact (unreadable_template_raises quiet_host sample_script _ (Dir true) H1 I).
Defined.

Lemma destination_reads_back_witness :
  run quiet_host sample_script (sample_world (Some crlf_template) None)
    = (0, None, after (sample_world (Some crlf_template) None))
  ∧ ∃ data text data',
      file_data (fs (sample_world (Some crlf_template) None))
        (TEMPLATE_PATH sample_script) = Some data
      ∧ text_of_bytes data = Some text
      ∧ file_data (fs (after (sample_world (Some crlf_template) None)))
          TARGET_PATH = Some data'
      ∧ text_of_bytes data' = Some (normalize text).
Proof.
  assert (run quiet_host sample_script (sample_world (Some crlf_template) None)
          = (0, None, after (sample_world (Some crlf_template) None)))
    as H1 by by_running.
  split; [exact H1|].
  exact (destination_reads_back quiet_host sample_script _ _ H1).
Defined.

Lemma tidy_template_no_CR : CR ∉ tidy_template.
Proof. intros H. vm_compute in H. no_such_element H. Defined.

Lemma normalized_template_witness :
  file_data (fs (sample_world (Some tidy_template) None))
    (TEMPLATE_PATH sample_script) = Some tidy_template
  ∧ utf8_decode tidy_template = Some tidy_template
  ∧ (CR ∉ tidy_template)
  ∧ normalize tidy_template = tidy_template
  ∧ run quiet_host sample_script (sample_world (Some tidy_template) None)
    = (0, None, after (sample_world (Some tidy_template) None))
  ∧ file_data (fs (after (sample_world (Some tidy_template) None)))
      TARGET_PATH = Some tidy_template.
Proof.
  assert (file_data (fs (sample_world (Some tidy_template) None))
            (TEMPLATE_PATH sample_script) = Some tidy_template)
    as H1 by by_running.
  assert (utf8_decode tidy_template = Some tidy_template) as H2 by by_running.
  assert (normalize tidy_template = tidy_template) as H4 by by_running.
  assert (run quiet_host sample_script (sample_world (Some tidy_template) None)
          = (0, None, after (sample_world (Some tidy_template) None)))
    as H5 by by_running.
  repeat (split; [assumption || exact tidy_template_no_CR|]).
  exact (normalized_template_copied quiet_host sample_script _ _ _ _
           H1 H2 tidy_template_no_CR H4 H5).
Defined.

Lemma output_fixed_point_witness :
  run quiet_host sample_script (sample_world (Some abc_template) None)
    = (0, None, after (sample_world (Some abc_template) None))
  ∧ file_data (fs (after (sample_world (Some abc_template) None))) TARGET_PATH
    = Some tidy_template
  ∧ file_data (fs (sample_world (Some tidy_template) (Some (lit "stale"))))
      (TEMPLATE_PATH sample_script) = Some tidy_template
  ∧ run quiet_host sample_script (sample_world (Some tidy_template) (Some (lit "stale")))
    = (0, None,
       after (sample_world (Some tidy_template) (Some (lit "stale"))))
  ∧ file_data
      (fs (after (sample_world (Some tidy_template) (Some (lit "stale")))))
      TARGET_PATH = Some tidy_template.
Proof.
  assert (run quiet_host sample_script (sample_world (Some abc_template) None)
          = (0, None, after (sample_world (Some abc_template) None)))
    as H1 by by_running.
  assert (file_data (fs (after (sample_world (Some abc_template) None)))
            TARGET_PATH = Some tidy_template) as H2 by by_running.
  assert (file_data
            (fs (sample_world (Some tidy_template) (Some (lit "stale"))))
            (TEMPLATE_PATH sample_script) = Some tidy_template)
    as H3 by by_running.
  assert (run quiet_host sample_script
            (sample_world (Some tidy_template) (Some (lit "stale")))
          = (0, None,
             after (sample_world (Some tidy_template) (Some (lit "stale")))))
    as H4 by by_running.
  repeat (split; [assumption|]).
  exact (output_is_fixed_point quiet_host sample_script _ _ _ _ _ H1 H2 H3 H4).
Defined.

Lemma no_carriage_return_witness :
  run quiet_host sample_script (sample_world (Some crlf_template) None)
    = (0, None, after (sample_world (Some crlf_template) None))
  ∧ file_data (fs (after (sample_world (Some crlf_template) None))) TARGET_PATH
    = Some (lit "a" ++ [LF] ++ lit "b" ++ [LF] ++ lit "c" ++ [LF])
  ∧ CR ∉ (lit "a" ++ [LF] ++ lit "b" ++ [LF] ++ lit "c" ++ [LF]).
Proof.
  assert (run quiet_host sample_script (sample_world (Some crlf_template) None)
          = (0, None, after (sample_world (Some crlf_template) None)))
    as H1 by by_running.
  assert (file_data (fs (after (sample_world (Some crlf_template) None)))
            TARGET_PATH
          = Some (lit "a" ++ [LF] ++ lit "b" ++ [LF] ++ lit "c" ++ [LF]))
    as H2 by by_running.
  repeat (split; [assumption|]).
  exact (no_carriage_return_written quiet_host sample_script _ _ _ H1 H2).
Defined.


Lemma run_succeeds_witness :
  fs (sample_world (Some abc_template) None) !! TEMPLATE_PATH sample_script
    = Some (File true true abc_template)
  ∧ text_of_bytes abc_template = Some abc_template
  ∧ ((∃ r old, fs (sample_world (Some abc_template) None) !! TARGET_PATH
               = Some (File r true old))
     ∨ (fs (sample_world (Some abc_template) None) !! TARGET_PATH = None
        ∧ fs (sample_world (Some abc_template) None) !! parent TARGET_PATH
          = Some (Dir true)))
  ∧ (∀ data', bytes_of_text (normalize abc_template) = Some data' →
              fits quiet_host data' = true)
  ∧ stdout_sink quiet_host = Accepts
  ∧ ∃ w', run quiet_host sample_script (sample_world (Some abc_template) None)
          = (0, None, w')
          ∧ is_Some (file_data (fs w') TARGET_PATH).
Proof.
  assert (fs (sample_world (Some abc_template) None)
            !! TEMPLATE_PATH sample_script
          = Some (File true true abc_template)) as H1 by by_running.
  assert (text_of_bytes abc_template = Some abc_template) as H2
    by by_running.
  assert ((∃ r old, fs (sample_world (Some abc_template) None) !! TARGET_PATH
                    = Some (File r true old))
          ∨ (fs (sample_world (Some abc_template) None) !! TARGET_PATH = None
             ∧ fs (sample_world (Some abc_template) None)
                 !! parent TARGET_PATH = Some (Dir true))) as H3
    by (right; split; by_running).
  assert (∀ data', bytes_of_text (normalize abc_template) = Some data' →
                   fits quiet_host data' = true) as H4 by done.
  assert (stdout_sink quiet_host = Accepts) as H5 by reflexivity.
  repeat (split; [assumption|]).
  exact (run_succeeds quiet_host sample_script _ _ _ _ H1 H2 H3 H4 H5).
Defined.


Lemma template_never_modified_witness :
  (TEMPLATE_PATH sample_script ∉ other_names quiet_host TARGET_PATH)
  ∧ TEMPLATE_PATH sample_script ≠ TARGET_PATH
  ∧ fs (run quiet_host sample_script
          (sample_world (Some abc_template) None)).2
      !! TEMPLATE_PATH sample_script
    = fs (sample_world (Some abc_template) None)
        !! TEMPLATE_PATH sample_script.
Proof.
  assert (TEMPLATE_PATH sample_script ∉ other_names quiet_host TARGET_PATH)
    as H1 by apply not_elem_of_nil.
  split; [exact H1|].
  exact (template_never_modified quiet_host sample_script
           (sample_world (Some abc_template) None) H1).
Defined.
